(** * LLM response interpretation and orchestration engine

    A shallow embedding of the Python sources

      - [src/api-gateway/main.py]               (the API gateway / orchestrator)
      - [src/backend/main.py]                   (the older backend variant)
      - [src/backend/services/ai_service.py]    (its [AIService])

    Python [str] values are modelled as [string] (code points below 256),
    Python [int] values as [Z], a raised exception as a value, and the
    exchanges with the LLM endpoint as an explicit trace that a handler
    extends. The messages written to [logger] are not modelled. *)

From Stdlib Require Import String Ascii List ZArith NArith Lia Bool.
From Stdlib Require Import DecimalString.
Import ListNotations.

Open Scope string_scope.
Open Scope Z_scope.

(** ** Python [str] primitives *)

Module PyStr.

(** Characters that have no readable literal. *)
Definition dquote : ascii := "034"%char.
Definition backslash : ascii := "092"%char.
Definition LF : ascii := "010"%char.

(** [lit] reads a Python-style literal: an apostrophe stands for a double
    quote and a vertical bar for a line feed. It is only used to write
    down concrete texts. *)
Fixpoint lit (s : string) : string :=
  match s with
  | EmptyString => EmptyString
  | String c r =>
      if Ascii.eqb c "'" then String dquote (lit r)
      else if Ascii.eqb c "|" then String LF (lit r)
      else String c (lit r)
  end.

Definition code (c : ascii) : N := N_of_ascii c.

(** [str.isspace] on one character, restricted to code points below 256:
    TAB..CR, FS..US, SPACE, NEL and NBSP. It is also what the regular
    expression class [\s] matches on [str] patterns. *)
Definition isspace (c : ascii) : bool :=
  let n := code c in
  ((9 <=? n) && (n <=? 13) || (28 <=? n) && (n <=? 31)
   || (n =? 32) || (n =? 133) || (n =? 160))%N.

Definition is_empty (s : string) : bool :=
  match s with EmptyString => true | String _ _ => false end.

Fixpoint lstrip (s : string) : string :=
  match s with
  | EmptyString => EmptyString
  | String c r => if isspace c then lstrip r else s
  end.

Fixpoint rstrip (s : string) : string :=
  match s with
  | EmptyString => EmptyString
  | String c r =>
      let r' := rstrip r in
      if is_empty r' && isspace c then EmptyString else String c r'
  end.

(** [s.strip()] *)
Definition strip (s : string) : string := rstrip (lstrip s).

Definition len (s : string) : Z := Z.of_nat (String.length s).

(** [s.startswith(p)] *)
Definition startswith (s p : string) : bool := String.prefix p s.

(** [s.find(c)] for a one-character needle: the least index, or -1. *)
Fixpoint find (s : string) (c : ascii) : Z :=
  match s with
  | EmptyString => -1
  | String a r =>
      if Ascii.eqb a c then 0
      else let i := find r c in if i <? 0 then -1 else i + 1
  end.

(** [s.rfind(c)] for a one-character needle: the greatest index, or -1. *)
Fixpoint rfind (s : string) (c : ascii) : Z :=
  match s with
  | EmptyString => -1
  | String a r =>
      let i := rfind r c in
      if 0 <=? i then i + 1 else if Ascii.eqb a c then 0 else -1
  end.

(** Slice bounds as Python normalises them: a negative index counts from
    the end, and both ends are clamped to [0, len]. *)
Definition clamp (n i : Z) : Z :=
  if i <? 0 then Z.max 0 (i + n) else Z.min i n.

(** [s[a:b]] *)
Definition slice (s : string) (a b : Z) : string :=
  let a' := clamp (len s) a in
  let b' := clamp (len s) b in
  String.substring (Z.to_nat a') (Z.to_nat (b' - a')) s.


(** [drop n s] is [s[n:]] for a natural [n]. *)
Fixpoint drop (n : nat) (s : string) : string :=
  match n, s with
  | O, _ => s
  | S k, String _ r => drop k r
  | S _, EmptyString => EmptyString
  end.

(** [take n s] is [s[:n]] for a natural [n]. *)
Fixpoint take (n : nat) (s : string) : string :=
  match n, s with
  | S k, String c r => String c (take k r)
  | _, _ => EmptyString
  end.

End PyStr.

(** ** The three regular expressions of [_parse_json_array]

    Python's [re] scans from left to right; at each position it tries the
    pattern and, on a match, continues after the matched text. None of the
    three patterns can match the empty string. A pattern is given here by
    the number of characters it matches at the start of a text. *)

Module Re.
Import PyStr.

Definition matcher := string -> option nat.

(** Length of the longest run of [\s] at the start of [s]. *)
Fixpoint spaces (s : string) : nat :=
  match s with
  | String c r => if isspace c then S (spaces r) else O
  | EmptyString => O
  end.

(** [```json\s*] *)
Definition fence_json : matcher := fun s =>
  if String.prefix "```json" s then Some (7 + spaces (drop 7 s))%nat else None.

(** [```\s*] *)
Definition fence : matcher := fun s =>
  if String.prefix "```" s then Some (3 + spaces (drop 3 s))%nat else None.

(** Length of the longest run of [[^{}]] at the start of [s], and whether
    the run is followed by a closing brace. *)
Fixpoint flat_body (s : string) : option nat :=
  match s with
  | EmptyString => None
  | String c r =>
      if Ascii.eqb c "}" then Some O
      else if Ascii.eqb c "{" then None
      else option_map S (flat_body r)
  end.

(** [\{[^{}]*\}] *)
Definition flat_object : matcher := fun s =>
  match s with
  | String c r =>
      if Ascii.eqb c "{" then option_map (fun n => S (S n)) (flat_body r)
      else None
  | EmptyString => None
  end.

(** [re.sub(p, '', s)]: [skip] counts the characters of the current match
    that are still to be deleted. *)
Fixpoint sub_from (p : matcher) (skip : nat) (s : string) : string :=
  match s with
  | EmptyString => EmptyString
  | String c r =>
      match skip with
      | S k => sub_from p k r
      | O =>
          match p s with
          | Some n => sub_from p (Nat.pred n) r
          | None => String c (sub_from p O r)
          end
      end
  end.

Definition sub (p : matcher) (s : string) : string := sub_from p O s.

(** [re.findall(p, s)]: the matched texts, from left to right. *)
Fixpoint findall_from (p : matcher) (skip : nat) (s : string) : list string :=
  match s with
  | EmptyString => []
  | String c r =>
      match skip with
      | S k => findall_from p k r
      | O =>
          match p s with
          | Some n => take n s :: findall_from p (Nat.pred n) r
          | None => findall_from p O r
          end
      end
  end.

Definition findall (p : matcher) (s : string) : list string :=
  findall_from p O s.

End Re.

(** ** Python values and [json.loads]

    The [json] module belongs to Python's standard library, not to the
    repository. [loads] follows the decoder of CPython ([json.decoder] and
    [json.scanner]): the grammar, the places where white space is skipped,
    the strict treatment of control characters and the extensions [NaN],
    [Infinity] and [-Infinity]. A [JSONDecodeError] is [None]. Decoded
    strings are kept as code points, since a [\uXXXX] escape may denote a
    character outside the range of [ascii]; a float is kept as its lexeme. *)

Module Json.
Import PyStr.

#[local] Set Warnings "-register-all".

Definition pystr := list N.

Inductive value : Type :=
| JNull
| JBool (b : bool)
| JInt (z : Z)
| JFloat (lexeme : string)
| JStr (s : pystr)
| JArr (items : list value)
| JObj (members : list (pystr * value)).

Fixpoint codes (s : string) : pystr :=
  match s with
  | EmptyString => []
  | String c r => code c :: codes r
  end.

Definition pystr_eqb (a b : pystr) : bool :=
  if list_eq_dec N.eq_dec a b then true else false.

(** [dict[k] = v]: an existing key keeps its place and takes the new
    value, a new key goes last. *)
Fixpoint dict_set (d : list (pystr * value)) (k : pystr) (v : value)
  : list (pystr * value) :=
  match d with
  | [] => [(k, v)]
  | (k', v') :: r =>
      if pystr_eqb k' k then (k, v) :: r else (k', v') :: dict_set r k v
  end.

(** [dict(pairs)] *)
Definition dict_of_pairs (pairs : list (pystr * value)) : list (pystr * value) :=
  fold_left (fun d kv => dict_set d (fst kv) (snd kv)) pairs [].

(** JSON white space: space, TAB, LF, CR. *)
Definition is_ws (c : ascii) : bool :=
  let n := code c in ((n =? 32) || (n =? 9) || (n =? 10) || (n =? 13))%N.

Fixpoint skip_ws (s : string) : string :=
  match s with
  | String c r => if is_ws c then skip_ws r else s
  | EmptyString => EmptyString
  end.

Definition is_digit (c : ascii) : bool :=
  let n := code c in ((48 <=? n) && (n <=? 57))%N.

Definition hex_digit (c : ascii) : option N :=
  let n := code c in
  if ((48 <=? n) && (n <=? 57))%N then Some (n - 48)%N
  else if ((97 <=? n) && (n <=? 102))%N then Some (n - 87)%N
  else if ((65 <=? n) && (n <=? 70))%N then Some (n - 55)%N
  else None.

(** The four hexadecimal digits of a [\uXXXX] escape. *)
Definition hex4 (s : string) : option (N * string) :=
  match s with
  | String a (String b (String c (String d r))) =>
      match hex_digit a, hex_digit b, hex_digit c, hex_digit d with
      | Some x, Some y, Some z, Some w =>
          Some (((x * 16 + y) * 16 + z) * 16 + w, r)%N
      | _, _, _, _ => None
      end
  | _ => None
  end.

(** [scanstring], called after the opening quote. *)
Fixpoint scanstring (fuel : nat) (s : string) (acc : pystr)
  : option (pystr * string) :=
  match fuel with
  | O => None
  | S f =>
      match s with
      | EmptyString => None
      | String c r =>
          if Ascii.eqb c dquote then Some (rev acc, r)
          else if Ascii.eqb c backslash then
            match r with
            | EmptyString => None
            | String e r' =>
                if Ascii.eqb e dquote then scanstring f r' (34%N :: acc)
                else if Ascii.eqb e backslash then scanstring f r' (92%N :: acc)
                else if Ascii.eqb e "/" then scanstring f r' (47%N :: acc)
                else if Ascii.eqb e "b" then scanstring f r' (8%N :: acc)
                else if Ascii.eqb e "f" then scanstring f r' (12%N :: acc)
                else if Ascii.eqb e "n" then scanstring f r' (10%N :: acc)
                else if Ascii.eqb e "r" then scanstring f r' (13%N :: acc)
                else if Ascii.eqb e "t" then scanstring f r' (9%N :: acc)
                else if Ascii.eqb e "u" then
                  match hex4 r' with
                  | None => None
                  | Some (u, r1) =>
                      if ((55296 <=? u) && (u <=? 56319))%N then
                        (* a high surrogate: look for its low partner *)
                        match r1 with
                        | String b1 (String b2 r2) =>
                            if Ascii.eqb b1 backslash && Ascii.eqb b2 "u" then
                              match hex4 r2 with
                              | None => None
                              | Some (u2, r3) =>
                                  if ((56320 <=? u2) && (u2 <=? 57343))%N then
                                    scanstring f r3
                                      ((65536 + (u - 55296) * 1024 + (u2 - 56320))%N
                                         :: acc)
                                  else scanstring f r1 (u :: acc)
                              end
                            else scanstring f r1 (u :: acc)
                        | _ => scanstring f r1 (u :: acc)
                        end
                      else scanstring f r1 (u :: acc)
                  end
                else None
            end
          else if (code c <? 32)%N then None
          else scanstring f r (code c :: acc)
      end
  end.

(** Longest run of decimal digits at the start of [s]. *)
Fixpoint digits (s : string) : string * string :=
  match s with
  | String c r =>
      if is_digit c then let (d, t) := digits r in (String c d, t)
      else (EmptyString, s)
  | EmptyString => (EmptyString, EmptyString)
  end.

Definition digit_val (c : ascii) : Z := Z.of_N (code c) - 48.

Fixpoint int_of_digits (s : string) (acc : Z) : Z :=
  match s with
  | EmptyString => acc
  | String c r => int_of_digits r (10 * acc + digit_val c)
  end.

(** The integer part of [NUMBER_RE]: a single [0], or a non-zero digit
    followed by any digits. *)
Definition int_part (s : string) : option (string * string) :=
  match s with
  | String c r =>
      if Ascii.eqb c "0" then Some ("0", r)
      else if is_digit c then let (d, t) := digits r in Some (String c d, t)
      else None
  | EmptyString => None
  end.

(** The optional fraction [(\.[0-9]+)?]. *)
Definition frac_part (s : string) : string * string :=
  match s with
  | String c r =>
      if Ascii.eqb c "." then
        match digits r with
        | (EmptyString, _) => (EmptyString, s)
        | (d, t) => (String c d, t)
        end
      else (EmptyString, s)
  | EmptyString => (EmptyString, s)
  end.

(** The optional exponent [([eE][-+]?[0-9]+)?]. *)
Definition exp_part (s : string) : string * string :=
  match s with
  | String c r =>
      if Ascii.eqb c "e" || Ascii.eqb c "E" then
        let (sign, r1) :=
          match r with
          | String g r' =>
              if Ascii.eqb g "+" || Ascii.eqb g "-"
              then (String g EmptyString, r') else (EmptyString, r)
          | EmptyString => (EmptyString, r)
          end in
        match digits r1 with
        | (EmptyString, _) => (EmptyString, s)
        | (d, t) => (String c (sign ++ d), t)
        end
      else (EmptyString, s)
  | EmptyString => (EmptyString, s)
  end.

(** A number at the start of [s]: an [int] when it has neither fraction
    nor exponent, a [float] otherwise. *)
Definition scan_number (s : string) : option (value * string) :=
  let (neg, s1) :=
    match s with
    | String c r => if Ascii.eqb c "-" then (true, r) else (false, s)
    | EmptyString => (false, s)
    end in
  match int_part s1 with
  | None => None
  | Some (i, s2) =>
      let (fr, s3) := frac_part s2 in
      let (ex, s4) := exp_part s3 in
      if is_empty fr && is_empty ex then
        let z := int_of_digits i 0 in
        Some (JInt (if neg then - z else z), s4)
      else
        Some (JFloat ((if neg then "-" else "") ++ i ++ fr ++ ex), s4)
  end.

(** A fixed word at the start of [s]. *)
Definition keyword (w : string) (v : value) (s : string)
  : option (value * string) :=
  if String.prefix w s then Some (v, drop (String.length w) s) else None.

(** [scan_once], [JSONArray] (after the first item is known to exist) and
    [JSONObject] (after the quote that opens a key). *)
Fixpoint scan_once (fuel : nat) (s : string) : option (value * string) :=
  match fuel with
  | O => None
  | S f =>
      match s with
      | EmptyString => None
      | String c r =>
          if Ascii.eqb c dquote then
            match scanstring (String.length r) r [] with
            | Some (k, t) => Some (JStr k, t)
            | None => None
            end
          else if Ascii.eqb c "{" then
            match skip_ws r with
            | String d t =>
                if Ascii.eqb d "}" then Some (JObj [], t)
                else if Ascii.eqb d dquote then json_object f t []
                else None
            | EmptyString => None
            end
          else if Ascii.eqb c "[" then
            match skip_ws r with
            | String d t =>
                if Ascii.eqb d "]" then Some (JArr [], t)
                else json_array f (String d t) []
            | EmptyString => None
            end
          else if Ascii.eqb c "n" then keyword "null" JNull s
          else if Ascii.eqb c "t" then keyword "true" (JBool true) s
          else if Ascii.eqb c "f" then keyword "false" (JBool false) s
          else if Ascii.eqb c "N" then keyword "NaN" (JFloat "NaN") s
          else if Ascii.eqb c "I" then keyword "Infinity" (JFloat "Infinity") s
          else
            match scan_number s with
            | Some res => Some res
            | None => keyword "-Infinity" (JFloat "-Infinity") s
            end
      end
  end

with json_array (fuel : nat) (s : string) (acc : list value)
  : option (value * string) :=
  match fuel with
  | O => None
  | S f =>
      match scan_once f s with
      | None => None
      | Some (v, r) =>
          match skip_ws r with
          | String d t =>
              if Ascii.eqb d "]" then Some (JArr (rev (v :: acc)), t)
              else if Ascii.eqb d "," then json_array f (skip_ws t) (v :: acc)
              else None
          | EmptyString => None
          end
      end
  end

with json_object (fuel : nat) (s : string) (acc : list (pystr * value))
  : option (value * string) :=
  match fuel with
  | O => None
  | S f =>
      match scanstring (String.length s) s [] with
      | None => None
      | Some (k, r) =>
          match skip_ws r with
          | String d t =>
              if Ascii.eqb d ":" then
                match scan_once f (skip_ws t) with
                | None => None
                | Some (v, r1) =>
                    match skip_ws r1 with
                    | String e t1 =>
                        if Ascii.eqb e "}" then
                          Some (JObj (dict_of_pairs (rev ((k, v) :: acc))), t1)
                        else if Ascii.eqb e "," then
                          match skip_ws t1 with
                          | String q t2 =>
                              if Ascii.eqb q dquote
                              then json_object f t2 ((k, v) :: acc)
                              else None
                          | EmptyString => None
                          end
                        else None
                    | EmptyString => None
                    end
                end
              else None
          | EmptyString => None
          end
      end
  end.

(** [json.loads(s)]: white space, one value, white space, end of text. *)
Definition loads (s : string) : option value :=
  match scan_once (S (String.length s)) (skip_ws s) with
  | Some (v, r) => if is_empty (skip_ws r) then Some v else None
  | None => None
  end.

End Json.

(** ** Exceptions and results *)

Module Py.

(** The exceptions that the modelled code raises or lets through. The
    three transport errors are those of [httpx] that [_call_ollama]
    tells apart: [ConnectError] and [TimeoutException] are kinds of
    [RequestError]; here [RequestError] stands for every other kind.
    [OtherError] is any further exception, with its text. *)
Inductive exn : Type :=
| Exception (msg : string)
| HTTPException (status_code : Z) (detail : string)
| TypeError (msg : string)
| AttributeError (msg : string)
| TimeoutException (msg : string)
| ConnectError (msg : string)
| RequestError (msg : string)
| HTTPStatusError (msg : string)
| OtherError (msg : string).

(** [str(e)]; Starlette prints an [HTTPException] as status and detail. *)
Definition str_exn (e : exn) : string :=
  match e with
  | HTTPException c d => NilZero.string_of_int (Z.to_int c) ++ ": " ++ d
  | Exception m | TypeError m | AttributeError m | TimeoutException m
  | ConnectError m | RequestError m | HTTPStatusError m | OtherError m => m
  end.

(** What a call produces: a value, or a raised exception. *)
Inductive outcome (A : Type) : Type :=
| Return (a : A)
| Raise (e : exn).

Arguments Return {A} a.
Arguments Raise {A} e.

Definition str_int (z : Z) : string := NilZero.string_of_int (Z.to_int z).

End Py.

(** ** The structured extractor of the API gateway

    [src/api-gateway/main.py], [_parse_json_array]. The messages written
    to [logger] are not modelled; evaluating the arguments of a message is,
    where it can raise. *)

Module Extractor.
Import PyStr Json Py.

(** [isinstance(v, list)] *)
Definition is_list (v : value) : bool :=
  match v with JArr _ => true | _ => false end.

Definition type_name (v : value) : string :=
  match v with
  | JNull => "NoneType"
  | JBool _ => "bool"
  | JInt _ => "int"
  | JFloat _ => "float"
  | JStr _ => "str"
  | JArr _ => "list"
  | JObj _ => "dict"
  end.

(** [len(v)] *)
Definition py_len (v : value) : outcome Z :=
  match v with
  | JArr l => Return (Z.of_nat (List.length l))
  | JObj m => Return (Z.of_nat (List.length m))
  | JStr s => Return (Z.of_nat (List.length s))
  | _ => Raise (TypeError ("object of type '" ++ type_name v ++ "' has no len()"))
  end.

(** Lines 559-564: the text that is searched for an array. *)
Definition cleaned (response : string) : string :=
  let cleaned := strip response in
  if startswith cleaned "```" then
    let cleaned := Re.sub Re.fence_json cleaned in
    let cleaned := Re.sub Re.fence cleaned in
    strip cleaned
  else cleaned.

Definition json_start (response : string) : Z := find (cleaned response) "[".
Definition json_end (response : string) : Z := rfind (cleaned response) "]" + 1.

(** The condition of line 569. *)
Definition has_window (response : string) : bool :=
  (0 <=? json_start response) && (json_start response <? json_end response).

(** Line 570: [cleaned[json_start:json_end]]. *)
Definition json_str (response : string) : string :=
  slice (cleaned response) (json_start response) (json_end response).

(** Lines 584-595 and 599: the handler of [json.JSONDecodeError]. Every
    text that matches the flat-object pattern is decoded on its own, and
    one that fails to decode is skipped. *)
Definition salvage (response : string) : value :=
  let json_objects := Re.findall Re.flat_object response in
  match json_objects with
  | [] => JArr []
  | _ :: _ =>
      let parsed_objects :=
        flat_map (fun obj_str =>
                    match loads obj_str with
                    | Some v => [v]
                    | None => []
                    end) json_objects in
      match parsed_objects with
      | [] => JArr []
      | _ :: _ => JArr parsed_objects
      end
  end.

(** Lines 553-599. *)
Definition _parse_json_array (response : string) : outcome value :=
  if has_window response then
    match loads (json_str response) with
    | Some parsed =>
        (* line 572 evaluates [len(parsed)] *)
        match py_len parsed with
        | Return _ => Return parsed
        | Raise e => Raise e
        end
    | None => Return (salvage response)
    end
  else
    match loads (cleaned response) with
    | Some parsed => Return (if is_list parsed then parsed else JArr [])
    | None => Return (salvage response)
    end.

End Extractor.

(** ** The LLM endpoint and the effects of a request handler

    A handler runs against an environment: the process environment
    variables, and the completion endpoint, which answers the [n]-th POST
    of the run. What a handler does to the outside world is the trace of
    the requests it sent and the results it received, in order. *)

Module Effects.
Import PyStr Json Py.

(** The JSON document posted to [/api/generate]. *)
Record payload : Type := mkPayload {
  p_model : string;
  p_prompt : string;
  p_stream : bool;
  p_system : option string
}.

(** The decoded body of an HTTP response, as far as the client reads it:
    an object whose ["response"] member is a string, an object without
    that member, or anything else (on which [.json()], [.get] or [.strip]
    raises). *)
Inductive reply_body : Type :=
| Generated (response : string)
| NoResponseMember
| Malformed (msg : string).

Inductive http_result : Type :=
| Response (status_code : Z) (body : reply_body)
| TimedOut (msg : string)
| ConnectFailed (msg : string)
| RequestFailed (msg : string).

Inductive io_event : Type :=
| Sent (url : string) (json : payload)
| Received (r : http_result).

Definition trace := list io_event.

Record environment : Type := mkEnv {
  getenv : string -> option string;
  endpoint : nat -> string -> payload -> http_result;
  (** the text of the error that [raise_for_status] raises *)
  status_text : Z -> string -> string
}.

(** [os.getenv(name, default)] *)
Definition os_getenv (E : environment) (name default : string) : string :=
  match getenv E name with
  | Some v => v
  | None => default
  end.

(** A computation reads and extends the trace, and returns or raises. *)
Definition M (A : Type) : Type := trace -> outcome A * trace.

Definition ret {A} (a : A) : M A := fun t => (Return a, t).

Definition raise {A} (e : exn) : M A := fun t => (Raise e, t).

Definition bind {A B} (m : M A) (k : A -> M B) : M B :=
  fun t =>
    match m t with
    | (Return a, t') => k a t'
    | (Raise e, t') => (Raise e, t')
    end.

(** [try: m except ... as e: h e] *)
Definition try_except {A} (m : M A) (h : exn -> M A) : M A :=
  fun t =>
    match m t with
    | (Return a, t') => (Return a, t')
    | (Raise e, t') => h e t'
    end.

Definition lift {A} (o : outcome A) : M A := fun t => (o, t).

Definition is_sent (ev : io_event) : bool :=
  match ev with Sent _ _ => true | Received _ => false end.

(** The number of requests sent so far. *)
Definition sent (t : trace) : nat := List.length (filter is_sent t).

(** [await client.post(url, json=payload)] and [requests.post]: the
    request goes out, and the control flow resumes when its result is
    in. *)
Definition post (E : environment) (url : string) (p : payload)
  : M (Z * reply_body) :=
  fun t =>
    let r := endpoint E (sent t) url p in
    let t' := (t ++ [Sent url p; Received r])%list in
    match r with
    | Response c b => (Return (c, b), t')
    | TimedOut m => (Raise (TimeoutException m), t')
    | ConnectFailed m => (Raise (ConnectError m), t')
    | RequestFailed m => (Raise (RequestError m), t')
    end.

(** [result = response.json()] followed by [result.get("response", "")],
    up to the [.strip()] that the caller applies. *)
Definition response_member (b : reply_body) : M string :=
  match b with
  | Generated s => ret s
  | NoResponseMember => ret ""
  | Malformed m => raise (OtherError m)
  end.

(** The content of a [JSONResponse]. *)
Inductive JSONResponse : Type :=
| mkJSONResponse (content : list (pystr * value)).

End Effects.

Declare Scope py_scope.
Delimit Scope py_scope with py.
Notation "x <- m ;; k" := (Effects.bind m (fun x => k))
  (at level 61, m at next level, right associativity) : py_scope.
Notation "m ;;; k" := (Effects.bind m (fun _ => k))
  (at level 61, right associativity) : py_scope.

(** ** The API gateway: [src/api-gateway/main.py] *)

Module Gateway.
Import PyStr Json Py Effects Extractor.
Local Open Scope py_scope.

(** [x in xs] for a list of strings *)
Definition in_list (x : string) (xs : list string) : bool :=
  existsb (String.eqb x) xs.

(** [s.lower()] on code points below 256. *)
Definition lower_char (c : ascii) : ascii :=
  let n := code c in
  if ((65 <=? n) && (n <=? 90) || (192 <=? n) && (n <=? 222) && negb (n =? 215))%N
  then ascii_of_N (n + 32) else c.

Fixpoint lower (s : string) : string :=
  match s with
  | EmptyString => EmptyString
  | String c r => String (lower_char c) (lower r)
  end.

(** A float lexeme denotes zero when its mantissa has no non-zero digit. *)
Fixpoint mantissa_is_zero (s : string) : bool :=
  match s with
  | EmptyString => true
  | String c r =>
      if Ascii.eqb c "e" || Ascii.eqb c "E" then true
      else if Ascii.eqb c "0" || Ascii.eqb c "." || Ascii.eqb c "-"
           then mantissa_is_zero r
      else false
  end.

(** [bool(v)] *)
Definition truthy (v : value) : bool :=
  match v with
  | JNull => false
  | JBool b => b
  | JInt z => negb (z =? 0)
  | JFloat x => negb (mantissa_is_zero x)
  | JStr s => negb (Nat.eqb (List.length s) 0)
  | JArr l => negb (Nat.eqb (List.length l) 0)
  | JObj m => negb (Nat.eqb (List.length m) 0)
  end.

(** [not v or len(v) == 0] *)
Definition not_or_empty (v : value) : outcome bool :=
  if negb (truthy v) then Return true
  else match py_len v with
       | Return n => Return (n =? 0)
       | Raise e => Raise e
       end.

(** The items that [for q in v] visits. *)
Definition iter (v : value) : list value :=
  match v with
  | JArr l => l
  | JObj m => map (fun kv => JStr (fst kv)) m
  | JStr s => map (fun c => JStr [c]) s
  | _ => []
  end.

Fixpoint infix (needle s : pystr) : bool :=
  pystr_eqb (firstn (List.length needle) s) needle
  || match s with
     | [] => false
     | _ :: r => infix needle r
     end.

Definition is_str (k : pystr) (v : value) : bool :=
  match v with JStr s => pystr_eqb s k | _ => false end.

(** Lines 324-327, for one question [q]. The first test only logs. The
    second evaluates ["options" not in q], which raises on a value that
    is no container, and then [q.get], which only a dict has. *)
Definition check_question (q : value) : outcome unit :=
  match q with
  | JObj _ => Return tt
  | JArr l =>
      if existsb (is_str (codes "options")) l
      then Raise (AttributeError "'list' object has no attribute 'get'")
      else Return tt
  | JStr s =>
      if infix (codes "options") s
      then Raise (AttributeError "'str' object has no attribute 'get'")
      else Return tt
  | _ =>
      Raise (TypeError ("argument of type '" ++ type_name q ++ "' is not iterable"))
  end.

(** Lines 323-327: the loop stops at the first question that raises. *)
Fixpoint check_questions (qs : list value) : outcome unit :=
  match qs with
  | [] => Return tt
  | q :: r =>
      match check_question q with
      | Return _ => check_questions r
      | Raise e => Raise e
      end
  end.

Definition dict := list (pystr * value).

(** [d.values()] *)
Definition values (d : dict) : list value := map snd d.

(** Lines 279-287. *)
Definition num_questions (text_length : Z) : string :=
  if 10000 <? text_length then "12-18"
  else if 5000 <? text_length then "10-15"
  else if 3000 <? text_length then "8-12"
  else "5-8".

(** Lines 454-462. *)
Definition num_flashcards (text_length : Z) : string :=
  if 10000 <? text_length then "18-22"
  else if 5000 <? text_length then "15-18"
  else if 3000 <? text_length then "12-15"
  else "8-12".

(** Lines 289-306. *)
Definition multiple_choice_prompt (text : string) : string :=
  let num_questions := num_questions (len text) in
  lit "Based on the following text, generate "
  ++ num_questions
  ++ lit (" multiple choice questions in JSON format.|"
       ++ "Create questions covering the important topics and concepts from the text.|"
       ++ "For longer text, create more questions to cover the additional content.|"
       ++ "Return ONLY a valid JSON array with this structure:|"
       ++ "[|"
       ++ "    {|"
       ++ "        'question': 'Question text',|"
       ++ "        'options': ['Option A', 'Option B', 'Option C', 'Option D'],|"
       ++ "        'correct_answer': 0,|"
       ++ "        'explanation': 'Brief explanation'|"
       ++ "    },|"
       ++ "    ...|"
       ++ "]|"
       ++ "|"
       ++ "Text:|")
  ++ text
  ++ lit ("|"
       ++ "|"
       ++ "Return only the JSON array, no additional text.").

(** Lines 308-310. *)
Definition multiple_choice_system : string :=
  lit ("You are an expert educator creating multiple choice questions. |"
    ++ "Each question should have exactly 4 options, with one correct answer (index 0-3).|"
    ++ "Questions should test understanding, not just recall.").

(** Lines 337-351. *)
Definition fill_blank_prompt (text : string) : string :=
  lit ("Based on the following text, generate 5-7 fill-in-the-blank questions in JSON format.|"
    ++ "Return ONLY a valid JSON array with this structure:|"
    ++ "[|"
    ++ "    {|"
    ++ "        'question': 'Sentence with _____ blank',|"
    ++ "        'answer': 'Correct answer',|"
    ++ "        'hint': 'Optional hint'|"
    ++ "    },|"
    ++ "    ...|"
    ++ "]|"
    ++ "|"
    ++ "Text:|")
  ++ text
  ++ lit ("|"
       ++ "|"
       ++ "Return only the JSON array, no additional text.").

(** Lines 353-354. *)
Definition fill_blank_system : string :=
  lit ("You are an expert educator creating fill-in-the-blank questions.|"
    ++ "Each question should have a clear blank space (marked with _____) and a specific correct answer.").

(** Lines 374-388. *)
Definition short_answer_prompt (text : string) : string :=
  lit ("Based on the following text, generate 5-7 short answer questions in JSON format.|"
    ++ "Return ONLY a valid JSON array with this structure:|"
    ++ "[|"
    ++ "    {|"
    ++ "        'question': 'Question text',|"
    ++ "        'answer': 'Expected answer',|"
    ++ "        'key_points': ['Point 1', 'Point 2']|"
    ++ "    },|"
    ++ "    ...|"
    ++ "]|"
    ++ "|"
    ++ "Text:|")
  ++ text
  ++ lit ("|"
       ++ "|"
       ++ "Return only the JSON array, no additional text.").

(** Lines 390-391. *)
Definition short_answer_system : string :=
  lit ("You are an expert educator creating short answer questions.|"
    ++ "Questions should require thoughtful responses, not just one-word answers.").

(** Lines 423-429. *)
Definition summary_instruction (text_length : Z) : string :=
  if 10000 <? text_length then
    "Create a comprehensive summary covering all main topics, key concepts, and important information from the following text. Make sure to include all major points."
  else if 5000 <? text_length then
    "Create a detailed summary of the following text, covering all main ideas, key concepts, and important information."
  else
    "Create a concise summary of the following text. Focus on the main ideas, key concepts, and important information.".

(** Lines 431-437. *)
Definition summary_prompt (text : string) : string :=
  summary_instruction (len text)
  ++ lit ("|"
       ++ "Keep it clear and easy to understand.|"
       ++ "|"
       ++ "Text:|")
  ++ text
  ++ lit ("|"
       ++ "|"
       ++ "Summary:").

(** Lines 439-440. *)
Definition summary_system : string :=
  lit ("You are an expert at creating concise, informative summaries. |"
    ++ "Create clear and well-structured summaries that capture the main points.").

(** Lines 464-476. *)
Definition flashcards_prompt (text : string) : string :=
  let num_flashcards := num_flashcards (len text) in
  lit "Based on the following text, generate "
  ++ num_flashcards
  ++ lit (" flashcards in JSON format.|"
       ++ "Create flashcards covering the important concepts, definitions, and key information from the text.|"
       ++ "For longer text, create more flashcards to cover the additional content.|"
       ++ "Return ONLY a valid JSON array with this structure:|"
       ++ "[|"
       ++ "    {'front': 'Question or term', 'back': 'Answer or definition'},|"
       ++ "    ...|"
       ++ "]|"
       ++ "|"
       ++ "Text:|")
  ++ text
  ++ lit ("|"
       ++ "|"
       ++ "Return only the JSON array, no additional text.").

(** Lines 478-481. *)
Definition flashcards_system : string :=
  lit ("You are an expert educational content creator. |"
    ++ "Generate flashcards in JSON format from the provided text. |"
    ++ "Each flashcard should have a clear question on the front and a concise answer on the back.|"
    ++ "Focus on key concepts, definitions, and important facts.").

Record GenerateQuizRequest : Type := mkQuizRequest {
  quiz_text : string;
  quiz_type : string
}.

Record SummaryRequest : Type := mkSummaryRequest {
  summary_text : string
}.

Definition valid_types : list string :=
  ["multiple_choice"; "fill_blank"; "short_answer"; "all"].

Section Handlers.

Variable E : environment.

(** Line 39. *)
Definition LLM_SERVICE_URL : string :=
  os_getenv E "LLM_SERVICE_URL" "http://ollama:11434".

(** [response.raise_for_status()] of [httpx]: any status outside
    200..299 raises. *)
Definition raise_for_status (url : string) (status_code : Z) : M unit :=
  if (200 <=? status_code) && (status_code <=? 299) then ret tt
  else raise (HTTPStatusError (status_text E status_code url)).

(** Lines 487-550. *)
Definition _call_ollama (prompt : string) (system_prompt : option string)
           (model : string) : M string :=
  try_except
    (let url := LLM_SERVICE_URL ++ "/api/generate" in
     let payload :=
       mkPayload model prompt false
         match system_prompt with
         | Some s => if is_empty s then None else Some s
         | None => None
         end in
     response <- post E url payload ;;
     raise_for_status url (fst response) ;;;
     result <- response_member (snd response) ;;
     let response_text := strip result in
     if is_empty response_text then
       raise (Exception
                "LLM returned empty response - model may not have generated content")
     else ret response_text)
    (fun e =>
       match e with
       | TimeoutException _ =>
           raise (Exception
                    "LLM generation timed out after 15 minutes. The model may be too slow. Try using a smaller/faster model or shorter text.")
       | ConnectError m =>
           raise (Exception
                    ("Failed to connect to LLM service. Make sure Ollama is running: " ++ m))
       | RequestError m =>
           let error_msg := if is_empty m then "Unknown network error" else m in
           raise (Exception ("Failed to connect to LLM service: " ++ error_msg))
       | HTTPStatusError m =>
           raise (Exception ("LLM service returned error: " ++ m))
       | _ =>
           raise (Exception ("Failed to generate content with AI: " ++ str_exn e))
       end).

(** Lines 276-334: the multiple choice sub-task. *)
Definition multiple_choice_block (text quiz_type model_name : string)
           (result : dict) : M dict :=
  if in_list quiz_type ["multiple_choice"; "all"] then
    try_except
      (response <- _call_ollama (multiple_choice_prompt text)
                     (Some multiple_choice_system) model_name ;;
       parsed_questions <- lift (_parse_json_array response) ;;
       empty <- lift (not_or_empty parsed_questions) ;;
       if (empty : bool) then
         raise (Exception
                  "Failed to generate multiple choice questions: LLM returned empty or invalid response")
       else
         lift (check_questions (iter parsed_questions)) ;;;
         ret (dict_set result (codes "multiple_choice") parsed_questions))
      (fun e => raise e)
  else ret result.

(** Lines 336-371: the fill-in-the-blank sub-task. *)
Definition fill_blank_block (text quiz_type model_name : string)
           (result : dict) : M dict :=
  if in_list quiz_type ["fill_blank"; "all"] then
    try_except
      (response <- _call_ollama (fill_blank_prompt text)
                     (Some fill_blank_system) model_name ;;
       parsed_questions <- lift (_parse_json_array response) ;;
       empty <- lift (not_or_empty parsed_questions) ;;
       if (empty : bool) then
         raise (Exception
                  "Failed to generate fill-in-the-blank questions: LLM returned empty or invalid response")
       else ret (dict_set result (codes "fill_blank") parsed_questions))
      (fun e => if String.eqb quiz_type "fill_blank" then raise e else ret result)
  else ret result.

(** Lines 373-408: the short answer sub-task. *)
Definition short_answer_block (text quiz_type model_name : string)
           (result : dict) : M dict :=
  if in_list quiz_type ["short_answer"; "all"] then
    try_except
      (response <- _call_ollama (short_answer_prompt text)
                     (Some short_answer_system) model_name ;;
       parsed_questions <- lift (_parse_json_array response) ;;
       empty <- lift (not_or_empty parsed_questions) ;;
       if (empty : bool) then
         raise (Exception
                  "Failed to generate short answer questions: LLM returned empty or invalid response")
       else ret (dict_set result (codes "short_answer") parsed_questions))
      (fun e => if String.eqb quiz_type "short_answer" then raise e else ret result)
  else ret result.

(** The test of line 411: [not result] or every list among the values
    is empty. *)
Definition nothing_generated (result : dict) : bool :=
  match result with
  | [] => true
  | _ :: _ =>
      forallb (fun v => match v with
                        | JArr l => Nat.eqb (List.length l) 0
                        | _ => true
                        end)
              (filter is_list (values result))
  end.

(** Lines 259-414. *)
Definition _generate_quiz_with_llm (text quiz_type : string) : M dict :=
  let model_name := os_getenv E "OLLAMA_MODEL" "llama3.2:1b" in
  let result : dict := [] in
  result <- multiple_choice_block text quiz_type model_name result ;;
  result <- fill_blank_block text quiz_type model_name result ;;
  result <- short_answer_block text quiz_type model_name result ;;
  if nothing_generated result then
    raise (Exception "Failed to generate any quiz questions. All quiz types failed.")
  else ret result.

(** Lines 417-443. *)
Definition _generate_summary_with_llm (text : string) : M string :=
  let model_name := os_getenv E "OLLAMA_MODEL" "llama3.2:1b" in
  _call_ollama (summary_prompt text) (Some summary_system) model_name.

(** Lines 446-484. *)
Definition _generate_flashcards_with_llm (text : string) : M value :=
  let model_name := os_getenv E "OLLAMA_MODEL" "llama3.2:1b" in
  response <- _call_ollama (flashcards_prompt text)
                (Some flashcards_system) model_name ;;
  lift (_parse_json_array response).

(** Line 183: [sum(len(v) for v in quiz_result.values() if isinstance(v, list))] *)
Definition total_questions (quiz_result : dict) : Z :=
  fold_right Z.add 0
    (map (fun v => match v with
                   | JArr l => Z.of_nat (List.length l)
                   | _ => 0
                   end)
         (filter is_list (values quiz_result))).

(** Lines 146-200. *)
Definition generate_quiz (request : GenerateQuizRequest) : M JSONResponse :=
  try_except
    (let text := strip (quiz_text request) in
     let quiz_type := lower (quiz_type request) in
     if is_empty text then
       raise (HTTPException 400 "Text input is required")
     else if negb (in_list quiz_type valid_types) then
       raise (HTTPException 400
                ("Invalid quiz_type. Must be one of: "
                   ++ String.concat ", " valid_types))
     else
       quiz_result <- _generate_quiz_with_llm text quiz_type ;;
       match quiz_result with
       | [] =>
           raise (HTTPException 500 "Quiz generation returned empty result")
       | _ :: _ =>
           let total_questions := total_questions quiz_result in
           if total_questions =? 0 then
             raise (HTTPException 500
                      "Quiz generation completed but no questions were created")
           else
             ret (mkJSONResponse
                    [(codes "success", JBool true);
                     (codes "quiz", JObj quiz_result);
                     (codes "message",
                      JStr (codes ("Quiz generated successfully with "
                                     ++ str_int total_questions
                                     ++ " questions")))])
       end)
    (fun e =>
       match e with
       | HTTPException _ _ => raise e
       | _ => raise (HTTPException 500 ("Error generating quiz: " ++ str_exn e))
       end).

(** Lines 203-230. *)
Definition generate_summary (request : SummaryRequest) : M JSONResponse :=
  try_except
    (let text := strip (summary_text request) in
     if is_empty text then
       raise (HTTPException 400 "Text input is required")
     else
       summary <- _generate_summary_with_llm text ;;
       ret (mkJSONResponse
              [(codes "success", JBool true);
               (codes "summary", JStr (codes summary));
               (codes "message", JStr (codes "Summary generated successfully"))]))
    (fun e =>
       raise (HTTPException 500 ("Error generating summary: " ++ str_exn e))).

(** Lines 233-256. *)
Definition generate_flashcards (request : SummaryRequest) : M JSONResponse :=
  try_except
    (let text := strip (summary_text request) in
     if is_empty text then
       raise (HTTPException 400 "Text input is required")
     else
       flashcards <- _generate_flashcards_with_llm text ;;
       ret (mkJSONResponse
              [(codes "success", JBool true);
               (codes "flashcards", flashcards);
               (codes "message", JStr (codes "Flashcards generated successfully"))]))
    (fun e =>
       raise (HTTPException 500 ("Error generating flashcards: " ++ str_exn e))).

End Handlers.

End Gateway.

(** ** The backend variant: [src/backend/services/ai_service.py] and
    [src/backend/main.py] *)

Module Backend.
Import PyStr Json Py Effects Extractor.
Local Open Scope py_scope.

Definition dict := list (pystr * value).

(** [ai_service.py], lines 69-72. *)
Definition flashcards_system : string :=
  lit ("You are an expert educational content creator. |"
    ++ "            Generate flashcards in JSON format from the provided text. |"
    ++ "            Each flashcard should have a clear question on the front and a concise answer on the back.|"
    ++ "            Focus on key concepts, definitions, and important facts.").

(** [ai_service.py], lines 74-84. *)
Definition flashcards_prompt (text : string) : string :=
  lit ("Based on the following text, generate 5-10 flashcards in JSON format.|"
    ++ "            Return ONLY a valid JSON array with this structure:|"
    ++ "            [|"
    ++ "                {'front': 'Question or term', 'back': 'Answer or definition'},|"
    ++ "                ...|"
    ++ "            ]|"
    ++ "            |"
    ++ "            Text:|"
    ++ "            ")
  ++ text
  ++ lit ("|"
       ++ "            |"
       ++ "            Return only the JSON array, no additional text.").

(** [ai_service.py], lines 124-125. *)
Definition summary_system : string :=
  lit ("You are an expert at creating concise, informative summaries. |"
    ++ "            Create clear and well-structured summaries that capture the main points.").

(** [ai_service.py], lines 127-134. *)
Definition summary_prompt (text : string) : string :=
  lit ("Create a concise summary of the following text. |"
    ++ "            Focus on the main ideas, key concepts, and important information.|"
    ++ "            Keep it clear and easy to understand.|"
    ++ "            |"
    ++ "            Text:|"
    ++ "            ")
  ++ text
  ++ lit ("|"
       ++ "            |"
       ++ "            Summary:").

(** [ai_service.py], lines 157-159. *)
Definition questions_system : string :=
  lit ("You are an expert educator. |"
    ++ "            Create thoughtful study questions that test understanding of the material.|"
    ++ "            Include both factual questions and conceptual questions.").

(** [ai_service.py], lines 161-171. *)
Definition questions_prompt (text : string) : string :=
  lit ("Based on the following text, generate 5-8 study questions in JSON format.|"
    ++ "            Return ONLY a valid JSON array with this structure:|"
    ++ "            [|"
    ++ "                {'question': 'Question text', 'answer': 'Answer text'},|"
    ++ "                ...|"
    ++ "            ]|"
    ++ "            |"
    ++ "            Text:|"
    ++ "            ")
  ++ text
  ++ lit ("|"
       ++ "            |"
       ++ "            Return only the JSON array, no additional text.").

(** [ai_service.py], lines 89-105 and 176-191: the inner [try] of
    [generate_flashcards] and [generate_questions]. The array is looked
    for in the response as it is; when decoding fails, the [fallback]
    record list is returned. Lines 99 and 185 evaluate [len] of the
    decoded value. *)
Definition parse_or (fallback : value) (response : string) : outcome value :=
  let json_start := find response "[" in
  let json_end := rfind response "]" + 1 in
  let decoded :=
    if (0 <=? json_start) && (json_start <? json_end) then
      loads (slice response json_start json_end)
    else loads response in
  match decoded with
  | Some parsed =>
      match py_len parsed with
      | Return _ => Return parsed
      | Raise e => Raise e
      end
  | None => Return fallback
  end.

(** Line 105. *)
Definition fallback_flashcards (response : string) : value :=
  JArr [JObj [(codes "front", JStr (codes "Content from text"));
              (codes "back", JStr (codes (slice response 0 200)))]].

(** Line 191. *)
Definition fallback_questions (response : string) : value :=
  JArr [JObj [(codes "question", JStr (codes "What are the main points?"));
              (codes "answer", JStr (codes (slice response 0 200)))]].

Record GenerateContentRequest : Type := mkContentRequest {
  content_text : string;
  content_type : string
}.

Section Service.

Variable E : environment.

(** [AIService.__init__], lines 19-20. *)
Definition ollama_url : string := os_getenv E "OLLAMA_URL" "http://ollama:11434".
Definition model_name : string := os_getenv E "OLLAMA_MODEL" "llama3".

(** [response.raise_for_status()] of [requests]: a status in 400..599
    raises. *)
Definition raise_for_status (url : string) (status_code : Z) : M unit :=
  if (400 <=? status_code) && (status_code <? 600)
  then raise (HTTPStatusError (status_text E status_code url))
  else ret tt.

(** [AIService._call_ollama], lines 23-54. *)
Definition _call_ollama (prompt : string) (system_prompt : option string)
  : M string :=
  try_except
    (let url := ollama_url ++ "/api/generate" in
     let payload :=
       mkPayload model_name prompt false
         match system_prompt with
         | Some s => if is_empty s then None else Some s
         | None => None
         end in
     response <- post E url payload ;;
     raise_for_status url (fst response) ;;;
     result <- response_member (snd response) ;;
     ret (strip result))
    (fun e =>
       raise (Exception ("Failed to generate content with AI: " ++ str_exn e))).

(** [AIService.generate_flashcards], lines 56-109. *)
Definition generate_flashcards (text : string) : M value :=
  try_except
    (response <- _call_ollama (flashcards_prompt text) (Some flashcards_system) ;;
     lift (parse_or (fallback_flashcards response) response))
    (fun e => raise (Exception ("Failed to generate flashcards: " ++ str_exn e))).

(** [AIService.generate_summary], lines 111-142. *)
Definition generate_summary (text : string) : M string :=
  try_except
    (_call_ollama (summary_prompt text) (Some summary_system))
    (fun e => raise (Exception ("Failed to generate summary: " ++ str_exn e))).

(** [AIService.generate_questions], lines 144-195. *)
Definition generate_questions (text : string) : M value :=
  try_except
    (response <- _call_ollama (questions_prompt text) (Some questions_system) ;;
     lift (parse_or (fallback_questions response) response))
    (fun e => raise (Exception ("Failed to generate questions: " ++ str_exn e))).

(** [main.py], lines 130-168. *)
Definition generate_content (request : GenerateContentRequest) : M JSONResponse :=
  try_except
    (let text := content_text request in
     let content_type := content_type request in
     if is_empty text || (len (strip text) =? 0) then
       raise (HTTPException 400 "Text input is required")
     else
       let result : dict := [] in
       result <-
         (if Gateway.in_list content_type ["flashcards"; "all"] then
            flashcards <- generate_flashcards text ;;
            ret (dict_set result (codes "flashcards") flashcards)
          else ret result) ;;
       result <-
         (if Gateway.in_list content_type ["summary"; "all"] then
            summary <- generate_summary text ;;
            ret (dict_set result (codes "summary") (JStr (codes summary)))
          else ret result) ;;
       result <-
         (if Gateway.in_list content_type ["questions"; "all"] then
            questions <- generate_questions text ;;
            ret (dict_set result (codes "questions") questions)
          else ret result) ;;
       ret (mkJSONResponse
              [(codes "success", JBool true);
               (codes "content", JObj result);
               (codes "message", JStr (codes "Content generated successfully"))]))
    (fun e =>
       raise (HTTPException 500 ("Error generating content: " ++ str_exn e))).

End Service.

End Backend.

(** ** Vocabulary of the specification *)

Module Spec.
Import PyStr Json Py Effects Extractor.

(** Every prefix of [s], the empty one first. *)
Fixpoint prefixes (s : string) : list string :=
  match s with
  | EmptyString => [EmptyString]
  | String c r => EmptyString :: map (String c) (prefixes r)
  end.

(** Every contiguous part of [s]. *)
Fixpoint substrings (s : string) : list string :=
  match s with
  | EmptyString => [EmptyString]
  | String c r => (prefixes s ++ substrings r)%list
  end.




(** The decoded flat objects of a text, in order of appearance: each
    match of the flat-object pattern that decodes. *)
Definition flat_objects (response : string) : list value :=
  flat_map (fun o => match loads o with Some v => [v] | None => [] end)
           (Re.findall Re.flat_object response).

(** The decoding that the extractor attempts before it salvages: the
    window from the first opening to the last closing bracket of the
    cleaned text if there is one, the whole cleaned text otherwise. *)
Definition first_attempt (response : string) : option value :=
  if has_window response then loads (json_str response)
  else loads (cleaned response).

(** An environment without variables whose endpoint answers the [n]-th
    request with the [n]-th result of a script. *)
Definition scripted (script : list http_result) : environment :=
  mkEnv (fun _ => None)
        (fun n _ _ => nth n script (ConnectFailed "connection refused"))
        (fun _ _ => "status error").

(** A successful exchange whose ["response"] member is the text [s]. *)
Definition says (s : string) : http_result := Response 200 (Generated s).

(** The text made of the gaps and the matches in turn, a gap first. *)
Fixpoint weave (gaps matches : list string) : string :=
  match gaps, matches with
  | g :: gs, m :: ms => g ++ m ++ weave gs ms
  | _, _ => EmptyString
  end.

(** No brace occurs in the text. *)
Fixpoint brace_free (s : string) : bool :=
  match s with
  | EmptyString => true
  | String c r => negb (Ascii.eqb c "{") && negb (Ascii.eqb c "}") && brace_free r
  end.

(** The sizing bands of the specification: at most 3,000 characters, at
    most 5,000, at most 10,000, and more. *)
Definition band (text_length : Z) : nat :=
  if text_length <=? 3000 then 0%nat
  else if text_length <=? 5000 then 1%nat
  else if text_length <=? 10000 then 2%nat
  else 3%nat.

(** A target range ["lo-hi"] read as a pair of numbers. *)
Fixpoint split_dash (s : string) (lo : string) : option (string * string) :=
  match s with
  | EmptyString => None
  | String c r =>
      if Ascii.eqb c "-" then Some (lo, r)
      else split_dash r (lo ++ String c EmptyString)
  end.

Definition range_of (s : string) : option (Z * Z) :=
  match split_dash s "" with
  | Some (lo, hi) => Some (int_of_digits lo 0, int_of_digits hi 0)
  | None => None
  end.

Definition range_lo (s : string) : Z :=
  match range_of s with Some (lo, _) => lo | None => 0 end.
Definition range_hi (s : string) : Z :=
  match range_of s with Some (_, hi) => hi | None => 0 end.
Definition range_width (s : string) : Z := range_hi s - range_lo s.

(** A text of [n] characters. *)
Fixpoint filler (n : nat) : string :=
  match n with
  | O => EmptyString
  | S k => String "a" (filler k)
  end.

(** Requests are issued jointly when every request of the trace is sent
    before any result is received. *)
Fixpoint issued_jointly (t : trace) : bool :=
  match t with
  | [] => true
  | Sent _ _ :: r => issued_jointly r
  | Received _ :: r => forallb (fun ev => negb (is_sent ev)) r
  end.

(** Requests are issued one after another when each request is followed
    at once by its own result. *)
Fixpoint sequential (t : trace) : bool :=
  match t with
  | [] => true
  | Sent _ _ :: Received _ :: r => sequential r
  | _ => false
  end.

(** The prompts of the requests of a trace, in order. *)
Definition prompts_sent (t : trace) : list string :=
  flat_map (fun ev => match ev with
                      | Sent _ p => [p_prompt p]
                      | Received _ => []
                      end) t.

(** What the gateway's completion client makes of the result of one
    exchange (compare [Gateway._call_ollama]). *)
Definition is_success (status_code : Z) : bool :=
  (200 <=? status_code) && (status_code <=? 299).

(** The exchange succeeded: a response with a success status and a
    readable body arrived. [Some text] is the text of its ["response"]
    member ([""] when the member is absent). *)
Definition exchange_text (r : http_result) : option string :=
  match r with
  | Response c (Generated s) => if is_success c then Some s else None
  | Response c NoResponseMember => if is_success c then Some "" else None
  | _ => None
  end.

(** A sub-task yields no record: the exchange fails, or its text is
    blank, or nothing is extracted from it. *)
Definition yields_no_records (r : http_result) : bool :=
  match exchange_text r with
  | None => true
  | Some s =>
      is_empty (strip s)
      || match _parse_json_array (strip s) with
         | Return (JArr []) => true
         | _ => false
         end
  end.


(** The URL and the JSON document of a completion request of the
    gateway. *)
Definition generate_url (E : environment) : string :=
  Gateway.LLM_SERVICE_URL E ++ "/api/generate".

Definition request (model prompt : string) (system_prompt : option string)
  : payload :=
  mkPayload model prompt false
    match system_prompt with
    | Some s => if is_empty s then None else Some s
    | None => None
    end.

Definition empty_response : string :=
  "LLM returned empty response - model may not have generated content".

(** What the gateway's completion client returns or raises for each
    result of the exchange (compare [Gateway._call_ollama]). *)
Definition client_outcome (E : environment) (r : http_result) : outcome string :=
  match r with
  | Response c b =>
      if is_success c then
        match b with
        | Malformed m =>
            Raise (Exception ("Failed to generate content with AI: " ++ m))
        | _ =>
            let s := match b with Generated s => s | _ => "" end in
            if is_empty (strip s) then
              Raise (Exception ("Failed to generate content with AI: " ++ empty_response))
            else Return (strip s)
        end
      else
        Raise (Exception ("LLM service returned error: "
                            ++ status_text E c (generate_url E)))
  | TimedOut _ =>
      Raise (Exception
               "LLM generation timed out after 15 minutes. The model may be too slow. Try using a smaller/faster model or shorter text.")
  | ConnectFailed m =>
      Raise (Exception
               ("Failed to connect to LLM service. Make sure Ollama is running: " ++ m))
  | RequestFailed m =>
      Raise (Exception ("Failed to connect to LLM service: "
                          ++ if is_empty m then "Unknown network error" else m))
  end.

(** A sub-task after the completion call: extraction, and the refusal
    of an empty result with the message [msg] (compare the [try] blocks
    of [Gateway._generate_quiz_with_llm]). *)
Definition subtask (msg : string) (o : outcome string) : outcome value :=
  match o with
  | Raise e => Raise e
  | Return response =>
      match _parse_json_array response with
      | Raise e => Raise e
      | Return v =>
          match Gateway.not_or_empty v with
          | Raise e => Raise e
          | Return true => Raise (Exception msg)
          | Return false => Return v
          end
      end
  end.

(** The multiple choice sub-task also walks through its questions. *)
Definition checked (o : outcome value) : outcome value :=
  match o with
  | Raise e => Raise e
  | Return v =>
      match Gateway.check_questions (Gateway.iter v) with
      | Return _ => Return v
      | Raise e => Raise e
      end
  end.

Definition multiple_choice_failed : string :=
  "Failed to generate multiple choice questions: LLM returned empty or invalid response".
Definition fill_blank_failed : string :=
  "Failed to generate fill-in-the-blank questions: LLM returned empty or invalid response".
Definition short_answer_failed : string :=
  "Failed to generate short answer questions: LLM returned empty or invalid response".

(** The three completion requests of a quiz, for a text and a model. *)
Definition multiple_choice_request (model text : string) : payload :=
  request model (Gateway.multiple_choice_prompt text)
          (Some Gateway.multiple_choice_system).
Definition fill_blank_request (model text : string) : payload :=
  request model (Gateway.fill_blank_prompt text) (Some Gateway.fill_blank_system).
Definition short_answer_request (model text : string) : payload :=
  request model (Gateway.short_answer_prompt text)
          (Some Gateway.short_answer_system).

Definition quiz_model (E : environment) : string :=
  os_getenv E "OLLAMA_MODEL" "llama3.2:1b".

(** The target ranges of the four bands, shortest texts first. *)
Definition quiz_ranges : list string := ["5-8"; "8-12"; "10-15"; "12-18"].
Definition flashcard_ranges : list string := ["8-12"; "12-15"; "15-18"; "18-22"].

(** Each number of the list is less than the next. *)
Fixpoint increasing (l : list Z) : bool :=
  match l with
  | a :: (b :: _) as r => (a <? b) && increasing r
  | _ => true
  end.

(** A completion that holds two questions. *)
Definition two_questions : string :=
  lit "[{'question': 'Q1', 'answer': 'A1'}, {'question': 'Q2', 'answer': 'A2'}]".

(** No part of the text decodes to a list. *)
Definition contains_array (t : string) : bool :=
  existsb (fun s => match loads s with Some (JArr _) => true | _ => false end)
          (substrings t).

End Spec.

(** ** Further vocabulary *)

Module Notions.
Import PyStr Json Py Effects Extractor.

(** Every character of the text is white space. *)
Fixpoint all_space (s : string) : bool :=
  match s with
  | EmptyString => true
  | String c r => isspace c && all_space r
  end.

(** The text has no backtick. *)
Fixpoint no_backtick (s : string) : bool :=
  match s with
  | EmptyString => true
  | String c r => negb (Ascii.eqb c "`") && no_backtick r
  end.

(** The keys that a quiz of the given kind may hold. *)
Definition kinds_of (quiz_type : string) : list pystr :=
  if String.eqb quiz_type "all"
  then [codes "multiple_choice"; codes "fill_blank"; codes "short_answer"]
  else [codes quiz_type].

(** The request is one that [generate_quiz] turns down before any call:
    its text is blank or its kind is unknown. *)
Definition turned_down (request : Gateway.GenerateQuizRequest) : bool :=
  is_empty (strip (Gateway.quiz_text request))
  || negb (Gateway.in_list (Gateway.lower (Gateway.quiz_type request))
             Gateway.valid_types).

(** A quiz is well formed for a kind: it is not empty, its keys are
    among those of the kind, and each of its values is a list that is
    not empty. *)
Definition well_formed (quiz_type : string) (d : Gateway.dict) : Prop :=
  d <> []
  /\ forall k v, In (k, v) d ->
       In k (kinds_of quiz_type) /\ exists q l, v = JArr (q :: l).

(** The content of the answer to a quiz request that succeeded. *)
Definition quiz_response (d : Gateway.dict) : JSONResponse :=
  mkJSONResponse
    [(codes "success", JBool true);
     (codes "quiz", JObj d);
     (codes "message",
      JStr (codes ("Quiz generated successfully with "
                     ++ str_int (Gateway.total_questions d) ++ " questions")))].

(** The content of the answers of the summary and of the flashcards
    handler of the gateway. *)
Definition summary_response (summary : string) : JSONResponse :=
  mkJSONResponse
    [(codes "success", JBool true);
     (codes "summary", JStr (codes summary));
     (codes "message", JStr (codes "Summary generated successfully"))].


(** The content of the answer of the backend's [generate_content]. *)
Definition content_response (content : Backend.dict) : JSONResponse :=
  mkJSONResponse
    [(codes "success", JBool true);
     (codes "content", JObj content);
     (codes "message", JStr (codes "Content generated successfully"))].

(** The keys of the content that the backend generates for a kind, in
    the order of generation. *)
Definition content_keys (content_type : string) : list pystr :=
  (if Gateway.in_list content_type ["flashcards"; "all"]
   then [codes "flashcards"] else [])
  ++ (if Gateway.in_list content_type ["summary"; "all"]
      then [codes "summary"] else [])
  ++ (if Gateway.in_list content_type ["questions"; "all"]
      then [codes "questions"] else []).

(** The value is a JSON object, a [dict] of Python. *)
Definition is_object (v : value) : bool :=
  match v with JObj _ => true | _ => false end.

(** A matcher that only matches at a backtick. *)
Definition heads_backtick (p : Re.matcher) : Prop :=
  forall c r, Ascii.eqb c "`" = false -> p (String c r) = None.

Definition is_http (e : exn) : bool :=
  match e with HTTPException _ _ => true | _ => false end.

End Notions.

(** ** The scan handler of the API gateway

    [src/api-gateway/main.py], [scan_image]. The handler posts the
    uploaded file to the OCR service and answers with the text that the
    service extracted. Reading the upload is taken to succeed; the body
    of the service's response is given as its text. *)

Module Scan.
Import PyStr Json Py Extractor.

Record UploadFile : Type := mkUploadFile {
  filename : string;
  file_content : string;
  file_content_type : string
}.

(** The result of posting the file: a response with its status and its
    text, or one of the request errors of [httpx]. *)
Inductive ocr_result : Type :=
| OcrResponse (status_code : Z) (text : string)
| OcrTimedOut (msg : string)
| OcrConnectFailed (msg : string)
| OcrRequestFailed (msg : string).

Record ocr_environment : Type := mkOcrEnv {
  ocr_getenv : string -> option string;
  ocr_endpoint : string -> UploadFile -> ocr_result;
  (** the text of the error that [response.json()] raises on a body
      that does not decode *)
  decode_error_text : string -> string
}.

(** [d.get(k, default)] on the pairs of a dict. *)
Fixpoint dict_get (d : list (pystr * value)) (k : pystr) (default : value)
  : value :=
  match d with
  | [] => default
  | (k', v) :: r => if pystr_eqb k' k then v else dict_get r k default
  end.

(** [v.get(k, default)]: only a dict has the method. *)
Definition get (v : value) (k : string) (default : value) : outcome value :=
  match v with
  | JObj m => Return (dict_get m (codes k) default)
  | _ =>
      Raise (AttributeError
               ("'" ++ type_name v ++ "' object has no attribute 'get'"))
  end.

Definition scan_response (text : value) : Effects.JSONResponse :=
  Effects.mkJSONResponse
    [(codes "success", JBool true);
     (codes "text", text);
     (codes "message", JStr (codes "Text extracted successfully"))].

Section Handler.

Variable E : ocr_environment.

(** Line 38. *)
Definition OCR_SERVICE_URL : string :=
  match ocr_getenv E "OCR_SERVICE_URL" with
  | Some v => v
  | None => "http://ocr-service:8001"
  end.

(** [await client.post(url, files=files)] *)
Definition post (url : string) (file : UploadFile) : outcome (Z * string) :=
  match ocr_endpoint E url file with
  | OcrResponse c b => Return (c, b)
  | OcrTimedOut m => Raise (TimeoutException m)
  | OcrConnectFailed m => Raise (ConnectError m)
  | OcrRequestFailed m => Raise (RequestError m)
  end.

(** Lines 101-131: the body of the [try]. *)
Definition scan_image_body (file : UploadFile) : outcome Effects.JSONResponse :=
  match post (OCR_SERVICE_URL ++ "/extract") file with
  | Raise e => Raise e
  | Return (status_code, text) =>
      if negb (status_code =? 200) then
        Raise (HTTPException status_code ("OCR service error: " ++ text))
      else
        match loads text with
        | None => Raise (OtherError (decode_error_text E text))
        | Some result =>
            match get result "success" JNull with
            | Raise e => Raise e
            | Return success =>
                if negb (Gateway.truthy success) then
                  Raise (HTTPException 500 "OCR extraction failed")
                else
                  (* line 125 evaluates [len(result.get('text', ''))] *)
                  match get result "text" (JStr []) with
                  | Raise e => Raise e
                  | Return extracted =>
                      match py_len extracted with
                      | Raise e => Raise e
                      | Return _ => Return (scan_response extracted)
                      end
                  end
            end
        end
  end.

(** Lines 91-143. The request errors of [httpx] include its time-outs
    and connection errors. *)
Definition scan_image (file : UploadFile) : outcome Effects.JSONResponse :=
  match scan_image_body file with
  | Return response => Return response
  | Raise e =>
      match e with
      | TimeoutException m | ConnectError m | RequestError m =>
          Raise (HTTPException 503 ("OCR service unavailable: " ++ m))
      | HTTPStatusError m =>
          Raise (HTTPException 503 ("OCR service error: " ++ m))
      | _ =>
          Raise (HTTPException 500 ("Error processing image: " ++ str_exn e))
      end
  end.

End Handler.

End Scan.

(** ** Tactics *)

(** Evaluate the membership and equality tests on closed strings. *)
Ltac decide_in_list :=
  repeat match goal with
    | |- context [Gateway.in_list ?a ?b] =>
        let v := eval vm_compute in (Gateway.in_list a b) in
        change (Gateway.in_list a b) with v
    | |- context [String.eqb ?a ?b] =>
        let v := eval vm_compute in (String.eqb a b) in
        change (String.eqb a b) with v
    end; cbv iota.

(** Evaluate the closed literals. *)
Ltac eval_lit :=
  repeat match goal with
    | |- context [PyStr.lit ?a] =>
        let v := eval vm_compute in (PyStr.lit a) in
        change (PyStr.lit a) with v
    end.

(** Evaluate the number of keys of a content. *)
Ltac count_keys :=
  match goal with
  | |- context [Datatypes.length ?d] =>
      let v := eval vm_compute in (Datatypes.length d) in
      change (Datatypes.length d) with v
  end.

(** * Facts about the primitives *)

Section StringFacts.
Import PyStr.

Lemma find_lower_bound (s : string) (c : ascii) : -1 <= find s c.
Proof.
  induction s as [|a r IH]; simpl; [lia|].
  destruct (Ascii.eqb a c); [lia|].
  destruct (find r c <? 0) eqn:H; [lia|].
  apply Z.ltb_ge in H. lia.
Qed.

Lemma find_head (s : string) (c : ascii) (m : nat) :
  0 <= find s c ->
  exists r, String.substring (Z.to_nat (find s c)) (S m) s = String c r.
Proof.
  induction s as [|a r IH]; simpl; [lia|].
  destruct (Ascii.eqb a c) eqn:Hac.
  - intros _. apply Ascii.eqb_eq in Hac. subst a. simpl. eauto.
  - destruct (find r c <? 0) eqn:H; [lia|].
    apply Z.ltb_ge in H. intros _.
    replace (Z.to_nat (find r c + 1)) with (S (Z.to_nat (find r c))) by lia.
    simpl. apply IH. exact H.
Qed.

Lemma find_lt_len (s : string) (c : ascii) : find s c < len s.
Proof.
  unfold len. induction s as [|a r IH]; simpl String.length; simpl find; [lia|].
  destruct (Ascii.eqb a c); [lia|].
  destruct (find r c <? 0); lia.
Qed.

(** The slice taken at the first occurrence of [c] starts with [c]. *)
Lemma slice_find_head (s : string) (c : ascii) (j : Z) :
  0 <= find s c -> find s c < j ->
  exists r, slice s (find s c) j = String c r.
Proof.
  intros H0 Hj. unfold slice, clamp.
  pose proof (find_lt_len s c) as Hl.
  destruct (find s c <? 0) eqn:Hneg; [apply Z.ltb_lt in Hneg; lia|].
  assert (Hj' : (j <? 0) = false) by (apply Z.ltb_ge; lia). rewrite Hj'.
  rewrite (Z.min_l (find s c)) by lia.
  destruct (Z.to_nat (Z.min j (len s) - find s c)) as [|m] eqn:Hm; [lia|].
  apply find_head. exact H0.
Qed.

End StringFacts.

Section DecoderFacts.
Import PyStr Json.

Lemma json_array_is_list (fuel : nat) :
  forall s acc v r, json_array fuel s acc = Some (v, r) -> exists l, v = JArr l.
Proof.
  induction fuel as [|f IH]; intros s acc v r; simpl; [discriminate|].
  destruct (scan_once f s) as [[v' r']|]; [|discriminate].
  destruct (skip_ws r') as [|d t]; [discriminate|].
  destruct (Ascii.eqb d "]").
  - intros H. injection H as <- _. eauto.
  - destruct (Ascii.eqb d ","); [|discriminate]. apply IH.
Qed.

(** A text that starts with an opening bracket decodes to a list, if it
    decodes at all. *)
Lemma loads_bracket (r : string) (v : value) :
  loads (String "[" r) = Some v -> exists l, v = JArr l.
Proof.
  unfold loads.
  change (skip_ws (String "[" r)) with (String "[" r).
  remember (String.length (String "[" r)) as n eqn:Hn. clear Hn.
  simpl scan_once.
  destruct (skip_ws r) as [|d t]; [discriminate|].
  destruct (Ascii.eqb d "]").
  - destruct (is_empty (skip_ws t)); [|discriminate].
    intros H. injection H as <-. eauto.
  - destruct (json_array n (String d t) []) as [[v' r']|] eqn:Ha; [|discriminate].
    destruct (is_empty (skip_ws r')); [|discriminate].
    intros H. injection H as <-. eapply json_array_is_list. exact Ha.
Qed.
End DecoderFacts.

Section FuelFacts.
Import PyStr Json.

Local Open Scope nat_scope.

Lemma skip_ws_length (s : string) : String.length (skip_ws s) <= String.length s.
Proof.
  induction s as [|c r IH]; simpl; [lia|].
  destruct (is_ws c); simpl; lia.
Qed.

Lemma hex4_length (s r : string) (u : N) :
  hex4 s = Some (u, r) -> String.length s = 4 + String.length r.
Proof.
  unfold hex4. destruct s as [|a [|b [|c [|d t]]]]; try discriminate.
  destruct (hex_digit a), (hex_digit b), (hex_digit c), (hex_digit d);
    try discriminate.
  intros H. inversion H. reflexivity.
Qed.

Lemma scanstring_length (f : nat) :
  forall s acc k r, scanstring f s acc = Some (k, r) -> String.length r < String.length s.
Proof.
  induction f as [|f IH]; intros s acc k r; simpl; [discriminate|].
  destruct s as [|c t]; [discriminate|].
  destruct (Ascii.eqb c dquote).
  { intros H. inversion H. simpl. lia. }
  destruct (Ascii.eqb c backslash).
  2:{ destruct (code c <? 32)%N; [discriminate|].
      intros H. apply IH in H. simpl. lia. }
  destruct t as [|e t']; [discriminate|].
  repeat match goal with
         | |- (if Ascii.eqb e ?x then scanstring f t' _ else _) = _ -> _ =>
             destruct (Ascii.eqb e x);
             [intros H; apply IH in H; simpl; lia|]
         end.
  destruct (Ascii.eqb e "u"); [|discriminate].
  destruct (hex4 t') as [[u r1]|] eqn:Hh; [|discriminate].
  apply hex4_length in Hh.
  assert (Hgo : forall a, scanstring f r1 a = Some (k, r) ->
                          String.length r < String.length (String c (String e t'))).
  { intros a H. apply IH in H. simpl. lia. }
  destruct ((55296 <=? u) && (u <=? 56319))%N; [|apply Hgo].
  destruct r1 as [|b1 [|b2 r2]]; try apply Hgo.
  destruct (Ascii.eqb b1 backslash && Ascii.eqb b2 "u"); [|apply Hgo].
  destruct (hex4 r2) as [[u2 r3]|] eqn:Hh2; [|discriminate].
  apply hex4_length in Hh2.
  destruct ((56320 <=? u2) && (u2 <=? 57343))%N; [|apply Hgo].
  intros H. apply IH in H. simpl in *. lia.
Qed.

Lemma digits_length (s d t : string) :
  digits s = (d, t) -> String.length t <= String.length s.
Proof.
  revert d t. induction s as [|c r IH]; intros d t; simpl.
  - intros H. inversion H. simpl. lia.
  - destruct (is_digit c).
    + destruct (digits r) as [d' t'] eqn:Hd. intros H. inversion H. subst.
      specialize (IH _ _ eq_refl). lia.
    + intros H. inversion H. simpl. lia.
Qed.

Lemma int_part_length (s i t : string) :
  int_part s = Some (i, t) -> String.length t < String.length s.
Proof.
  unfold int_part. destruct s as [|c r]; [discriminate|].
  destruct (Ascii.eqb c "0").
  - intros H. inversion H. simpl. lia.
  - destruct (is_digit c); [|discriminate].
    destruct (digits r) as [d t'] eqn:Hd. apply digits_length in Hd.
    intros H. inversion H. subst. simpl. lia.
Qed.

Lemma frac_part_length (s x t : string) :
  frac_part s = (x, t) -> String.length t <= String.length s.
Proof.
  unfold frac_part. destruct s as [|c r].
  - intros H. inversion H. lia.
  - destruct (Ascii.eqb c ".").
    + destruct (digits r) as [d t'] eqn:Hd. apply digits_length in Hd.
      destruct d; intros H; inversion H; subst; simpl; lia.
    + intros H. inversion H. lia.
Qed.

Lemma exp_part_length (s x t : string) :
  exp_part s = (x, t) -> String.length t <= String.length s.
Proof.
  unfold exp_part. destruct s as [|c r].
  - intros H. inversion H. lia.
  - destruct (Ascii.eqb c "e" || Ascii.eqb c "E").
    + destruct (match r with
                | "" => ("", r)
                | String g r' =>
                    if Ascii.eqb g "+" || Ascii.eqb g "-"
                    then (String g "", r') else ("", r)
                end) as [sign r1] eqn:Hs.
      assert (String.length r1 <= String.length r).
      { destruct r as [|g r']; [inversion Hs; simpl; lia|].
        destruct (Ascii.eqb g "+" || Ascii.eqb g "-"); inversion Hs; simpl; lia. }
      destruct (digits r1) as [d t'] eqn:Hd. apply digits_length in Hd.
      destruct d; intros H'; inversion H'; subst; simpl; lia.
    + intros H. inversion H. lia.
Qed.

Lemma scan_number_length (s : string) (v : value) (r : string) :
  scan_number s = Some (v, r) -> String.length r < String.length s.
Proof.
  unfold scan_number.
  destruct (match s with
            | "" => (false, s)
            | String c r0 => if Ascii.eqb c "-" then (true, r0) else (false, s)
            end) as [neg s1] eqn:Hn.
  assert (String.length s1 <= String.length s).
  { destruct s as [|c r0]; [inversion Hn; lia|].
    destruct (Ascii.eqb c "-"); inversion Hn; simpl; lia. }
  destruct (int_part s1) as [[i s2]|] eqn:Hi; [|discriminate].
  apply int_part_length in Hi.
  destruct (frac_part s2) as [fr s3] eqn:Hf. apply frac_part_length in Hf.
  destruct (exp_part s3) as [ex s4] eqn:He. apply exp_part_length in He.
  destruct (is_empty fr && is_empty ex); intros H'; inversion H'; subst; lia.
Qed.

Lemma drop_length (n : nat) (s : string) : String.length (drop n s) = String.length s - n.
Proof.
  revert s. induction n as [|n IH]; intros [|c r]; simpl; try lia. apply IH.
Qed.

Lemma prefix_length (w s : string) : String.prefix w s = true -> String.length w <= String.length s.
Proof.
  revert s. induction w as [|a w IH]; intros [|b s]; simpl; try lia; try discriminate.
  destruct (ascii_dec a b); [|discriminate]. intros H. apply IH in H. lia.
Qed.

Lemma keyword_length (w : string) (v v' : value) (s r : string) :
  0 < String.length w -> keyword w v s = Some (v', r) -> String.length r < String.length s.
Proof.
  unfold keyword. intros Hw. destruct (String.prefix w s) eqn:Hp; [|discriminate].
  apply prefix_length in Hp. intros H. inversion H. rewrite drop_length. lia.
Qed.

End FuelFacts.

Section StringFuel.
Import PyStr Json.
Local Open Scope nat_scope.

(** The fuel that the decoder gives [scanstring], the length of the text,
    is enough as well. *)
Lemma scanstring_fuel (f : nat) :
  forall s acc k r,
    scanstring f s acc = Some (k, r) ->
    forall f', String.length s <= f' -> scanstring f' s acc = Some (k, r).
Proof.
  induction f as [|f IH]; intros s acc k r; [discriminate|].
  destruct s as [|c t]; [discriminate|].
  intros H [|g] Hg; [cbn [String.length] in Hg; lia|].
  cbn [String.length] in Hg. revert H. simpl.
  destruct (Ascii.eqb c dquote); [auto|].
  destruct (Ascii.eqb c backslash).
  2:{ destruct (code c <? 32)%N; [discriminate|].
      intros H. eapply IH; [exact H|lia]. }
  destruct t as [|e t']; [discriminate|]. cbn [String.length] in Hg.
  repeat match goal with
         | |- (if Ascii.eqb e ?x then scanstring f t' _ else _) = _ -> _ =>
             destruct (Ascii.eqb e x);
             [intros H; eapply IH; [exact H|lia]|]
         end.
  destruct (Ascii.eqb e "u"); [|discriminate].
  destruct (hex4 t') as [[u r1]|] eqn:Hh; [|discriminate].
  apply hex4_length in Hh.
  assert (Hgo : forall a, scanstring f r1 a = Some (k, r) ->
                          scanstring g r1 a = Some (k, r)).
  { intros a H. eapply IH; [exact H|lia]. }
  destruct ((55296 <=? u) && (u <=? 56319))%N; [|apply Hgo].
  destruct r1 as [|b1 [|b2 r2]]; try apply Hgo.
  destruct (Ascii.eqb b1 backslash && Ascii.eqb b2 "u"); [|apply Hgo].
  destruct (hex4 r2) as [[u2 r3]|] eqn:Hh2; [|discriminate].
  apply hex4_length in Hh2.
  destruct ((56320 <=? u2) && (u2 <=? 57343))%N; [|apply Hgo].
  intros H. eapply IH; [exact H|]. cbn [String.length] in *. lia.
Qed.

End StringFuel.

Section FuelAdequacy.
Import PyStr Json.
Local Open Scope nat_scope.

(** A run of the decoder that succeeds with some fuel consumes at least
    one character, and succeeds with the same result with any fuel that
    is at least the number of characters it consumes. *)
Lemma decoder_fuel (f : nat) :
  (forall s v r,
      scan_once f s = Some (v, r) ->
      String.length r < String.length s
      /\ forall f', String.length s - String.length r <= f' ->
                    scan_once f' s = Some (v, r))
  /\ (forall s acc v r,
         json_array f s acc = Some (v, r) ->
         String.length r < String.length s
         /\ forall f', String.length s - String.length r <= f' ->
                       json_array f' s acc = Some (v, r))
  /\ (forall s acc v r,
         json_object f s acc = Some (v, r) ->
         String.length r < String.length s
         /\ forall f', String.length s - String.length r <= f' ->
                       json_object f' s acc = Some (v, r)).
Proof.
  induction f as [|f [IHs [IHa IHo]]].
  { repeat split; intros; discriminate. }
  split; [|split].
  - (* scan_once *)
    intros s v r H. destruct s as [|c r0]; [discriminate|].
    simpl in H.
    destruct (Ascii.eqb c dquote) eqn:E1.
    { destruct (scanstring (String.length r0) r0 []) as [[k t]|] eqn:Es; [|discriminate].
      inversion H; subst. apply scanstring_length in Es as Hl. cbn [String.length] in *. split; [lia|].
      cbn [String.length] in *. intros [|g] Hg; [lia|]. simpl. now rewrite E1, Es. }
    destruct (Ascii.eqb c "{") eqn:E2.
    { pose proof (skip_ws_length r0) as Hw.
      destruct (skip_ws r0) as [|d t] eqn:Ew; [discriminate|].
      destruct (Ascii.eqb d "}") eqn:E3.
      { inversion H; subst. cbn [String.length] in *. split; [lia|].
        intros [|g] Hg; [lia|]. simpl. now rewrite E1, E2, Ew, E3. }
      destruct (Ascii.eqb d dquote) eqn:E4; [|discriminate].
      apply IHo in H as [Hl Hf]. cbn [String.length] in *. split; [lia|].
      intros [|g] Hg; [lia|]. simpl. rewrite E1, E2, Ew, E3, E4. apply Hf. lia. }
    destruct (Ascii.eqb c "[") eqn:E3.
    { pose proof (skip_ws_length r0) as Hw.
      destruct (skip_ws r0) as [|d t] eqn:Ew; [discriminate|].
      destruct (Ascii.eqb d "]") eqn:E4.
      { inversion H; subst. cbn [String.length] in *. split; [lia|].
        intros [|g] Hg; [lia|]. simpl. now rewrite E1, E2, E3, Ew, E4. }
      apply IHa in H as [Hl Hf]. cbn [String.length] in *. split; [lia|].
      intros [|g] Hg; [lia|]. simpl. rewrite E1, E2, E3, Ew, E4. apply Hf. lia. }
    assert (Hl : String.length r < String.length (String c r0)).
    { repeat match type of H with
             | (if ?b then _ else _) = _ => destruct b
             end;
        try (eapply keyword_length; [|exact H]; simpl; lia).
      destruct (scan_number (String c r0)) as [res|] eqn:En.
      - inversion H; subst. eapply scan_number_length. exact En.
      - eapply keyword_length; [|exact H]. simpl; lia. }
    split; [exact Hl|].
    cbn [String.length] in *. intros [|g] Hg; [lia|]. simpl. rewrite E1, E2, E3. exact H.
  - (* json_array *)
    intros s acc v r H. simpl in H.
    destruct (scan_once f s) as [[v1 r1]|] eqn:Es; [|discriminate].
    apply IHs in Es as [Hl1 Hf1].
    pose proof (skip_ws_length r1) as Hw.
    destruct (skip_ws r1) as [|d t] eqn:Ew; [discriminate|].
    destruct (Ascii.eqb d "]") eqn:E1.
    { inversion H; subst. cbn [String.length] in *. split; [lia|].
      intros [|g] Hg; [lia|]. simpl. rewrite (Hf1 g) by lia.
      now rewrite Ew, E1. }
    destruct (Ascii.eqb d ",") eqn:E2; [|discriminate].
    pose proof (skip_ws_length t) as Hw2.
    apply IHa in H as [Hl Hf]. cbn [String.length] in *. split; [lia|].
    intros [|g] Hg; [lia|]. simpl. rewrite (Hf1 g) by lia.
    rewrite Ew, E1, E2. apply Hf. lia.
  - (* json_object *)
    intros s acc v r H. simpl in H.
    destruct (scanstring (String.length s) s []) as [[k r0]|] eqn:Ek; [|discriminate].
    apply scanstring_length in Ek as Hl0.
    pose proof (skip_ws_length r0) as Hw0.
    destruct (skip_ws r0) as [|d t] eqn:Ew0; [discriminate|].
    destruct (Ascii.eqb d ":") eqn:E1; [|discriminate].
    pose proof (skip_ws_length t) as Hwt.
    destruct (scan_once f (skip_ws t)) as [[v1 r1]|] eqn:Es; [|discriminate].
    apply IHs in Es as [Hl1 Hf1].
    pose proof (skip_ws_length r1) as Hw1.
    destruct (skip_ws r1) as [|e t1] eqn:Ew1; [discriminate|].
    destruct (Ascii.eqb e "}") eqn:E2.
    { inversion H; subst. cbn [String.length] in *. split; [lia|].
      intros [|g] Hg; [lia|]. simpl. rewrite Ek, Ew0, E1, (Hf1 g) by lia.
      now rewrite Ew1, E2. }
    destruct (Ascii.eqb e ",") eqn:E3; [|discriminate].
    pose proof (skip_ws_length t1) as Hw2.
    destruct (skip_ws t1) as [|q t2] eqn:Ew2; [discriminate|].
    destruct (Ascii.eqb q dquote) eqn:E4; [|discriminate].
    apply IHo in H as [Hl Hf]. cbn [String.length] in *. split; [lia|].
    intros [|g] Hg; [lia|]. simpl. rewrite Ek, Ew0, E1, (Hf1 g) by lia.
    rewrite Ew1, E2, E3, Ew2, E4. apply Hf. lia.
Qed.

(** The fuel that [loads] gives the decoder is enough: what decodes with
    any fuel decodes with it. *)
Lemma loads_fuel (f : nat) (s : string) (v : value) (r : string) :
  scan_once f (skip_ws s) = Some (v, r) ->
  is_empty (skip_ws r) = true ->
  loads s = Some v.
Proof.
  intros H He. unfold loads.
  destruct (proj1 (decoder_fuel f) _ _ _ H) as [Hl Hf].
  pose proof (skip_ws_length s).
  rewrite (Hf (S (String.length s))) by lia. now rewrite He.
Qed.

End FuelAdequacy.

Section PartFacts.
Import PyStr Spec.












End PartFacts.

Section FenceFacts.
Import PyStr Re Spec.








Lemma prefix_cons (a b : ascii) (p s : string) :
  String.prefix (String a p) (String b s) = Ascii.eqb a b && String.prefix p s.
Proof.
  cbn [String.prefix]. destruct (ascii_dec a b) as [<-|H].
  - now rewrite Ascii.eqb_refl.
  - apply Ascii.eqb_neq in H. now rewrite H.
Qed.

Lemma prefix_empty (s : string) : String.prefix "" s = true.
Proof. destruct s; reflexivity. Qed.

Lemma fence_none (c : ascii) (r : string) :
  Ascii.eqb "`" c && String.prefix "``" r = false -> fence (String c r) = None.
Proof. intros H. unfold fence. now rewrite prefix_cons, H. Qed.




End FenceFacts.

(** * The structured extractor *)

Section ExtractorFacts.
Import PyStr Json Py Extractor Spec.

Lemma window_starts_with_bracket (response : string) :
  has_window response = true ->
  exists r, json_str response = String "[" r.
Proof.
  unfold has_window, json_str, json_start. intros H.
  apply andb_true_iff in H as [H0 H1].
  apply Z.leb_le in H0. apply Z.ltb_lt in H1.
  apply slice_find_head; assumption.
Qed.

Lemma window_is_list (response : string) (v : value) :
  has_window response = true ->
  loads (json_str response) = Some v ->
  exists l, v = JArr l.
Proof.
  intros Hw Hv. destruct (window_starts_with_bracket _ Hw) as [r Hr].
  rewrite Hr in Hv. eapply loads_bracket. exact Hv.
Qed.

Lemma salvage_flat_objects (response : string) :
  salvage response = JArr (flat_objects response).
Proof.
  unfold salvage, flat_objects.
  destruct (Re.findall Re.flat_object response) as [|o os]; [reflexivity|].
  destruct (flat_map _ (o :: os)); reflexivity.
Qed.

(** The extractor never raises and always returns a list. *)
Lemma parse_json_array_total (response : string) :
  exists l, _parse_json_array response = Return (JArr l).
Proof.
  unfold _parse_json_array.
  destruct (has_window response) eqn:Hw.
  - destruct (loads (json_str response)) as [v|] eqn:Hv.
    + destruct (window_is_list _ _ Hw Hv) as [l ->]. simpl. eauto.
    + rewrite salvage_flat_objects. eauto.
  - destruct (loads (cleaned response)) as [v|].
    + destruct v; simpl; eauto.
    + rewrite salvage_flat_objects. eauto.
Qed.

(** What the extractor returns, by the outcome of its first attempt. *)
Lemma parse_json_array_cases (response : string) :
  _parse_json_array response =
  Return match first_attempt response with
         | Some v => if is_list v then v else JArr []
         | None => JArr (flat_objects response)
         end.
Proof.
  unfold _parse_json_array, first_attempt.
  destruct (has_window response) eqn:Hw.
  - destruct (loads (json_str response)) as [v|] eqn:Hv.
    + destruct (window_is_list _ _ Hw Hv) as [l ->]. reflexivity.
    + now rewrite salvage_flat_objects.
  - destruct (loads (cleaned response)) as [v|].
    + reflexivity.
    + now rewrite salvage_flat_objects.
Qed.




End ExtractorFacts.

Section ProseFacts.
Import PyStr Json Py Extractor Spec.

Lemma append_assoc (a b c : string) : (a ++ b) ++ c = a ++ b ++ c.
Proof. induction a as [|x a IH]; simpl; [reflexivity|now rewrite IH]. Qed.

Lemma len_append (a b : string) : len (a ++ b) = len a + len b.
Proof.
  unfold len. induction a as [|x a IH]; simpl String.length; [lia|].
  simpl String.append. simpl String.length. lia.
Qed.

Lemma len_nonneg (a : string) : 0 <= len a.
Proof. unfold len. lia. Qed.

Lemma rfind_lower_bound (s : string) (c : ascii) : -1 <= rfind s c.
Proof.
  induction s as [|a r IH]; simpl; [lia|].
  destruct (Z.leb_spec 0 (rfind r c)); [lia|]. destruct (Ascii.eqb a c); lia.
Qed.

Lemma find_absent_cons (a c : ascii) (s : string) :
  find (String a s) c = -1 -> Ascii.eqb a c = false /\ find s c = -1.
Proof.
  simpl. destruct (Ascii.eqb a c); [discriminate|].
  pose proof (find_lower_bound s c).
  destruct (Z.ltb_spec (find s c) 0); intros; split; auto; lia.
Qed.

Lemma rfind_absent_cons (a c : ascii) (s : string) :
  rfind (String a s) c = -1 -> Ascii.eqb a c = false /\ rfind s c = -1.
Proof.
  simpl. pose proof (rfind_lower_bound s c).
  destruct (Z.leb_spec 0 (rfind s c)); [lia|].
  destruct (Ascii.eqb a c); [discriminate|]. intros; split; auto; lia.
Qed.

(** Trimming on the left leaves a text that starts with a visible
    character in place, after what remains of the text before it. *)
Lemma lstrip_before (pre : string) (c : ascii) (x : string) :
  isspace c = false ->
  exists pre', lstrip (pre ++ String c x) = pre' ++ String c x
               /\ forall ch, find pre ch = -1 -> find pre' ch = -1.
Proof.
  intros Hc. induction pre as [|a p [pre' [IH1 IH2]]].
  - exists "". simpl. rewrite Hc. auto.
  - simpl. destruct (isspace a).
    + exists pre'. split; [exact IH1|].
      intros ch H. apply find_absent_cons in H as [_ H]. auto.
    + exists (String a p). auto.
Qed.

(** Trimming on the right stops at a visible character. *)
Lemma rstrip_after (y : string) (c : ascii) (post : string) :
  isspace c = false ->
  rstrip (y ++ String c post) = y ++ String c (rstrip post).
Proof.
  intros Hc. induction y as [|a y IH]; simpl.
  - now rewrite Hc, andb_false_r.
  - rewrite IH. destruct y; reflexivity.
Qed.

Lemma rfind_rstrip_absent (post : string) (ch : ascii) :
  rfind post ch = -1 -> rfind (rstrip post) ch = -1.
Proof.
  induction post as [|a r IH]; [reflexivity|].
  intros H. apply rfind_absent_cons in H as [Ha Hr]. simpl.
  destruct (is_empty (rstrip r) && isspace a); [reflexivity|].
  simpl. rewrite (IH Hr), Ha. reflexivity.
Qed.

Lemma find_after (p : string) (c : ascii) (r : string) :
  find p c = -1 -> find (p ++ String c r) c = len p.
Proof.
  unfold len. induction p as [|a p IH]; intros H.
  - simpl. now rewrite Ascii.eqb_refl.
  - apply find_absent_cons in H as [Ha Hp]. simpl String.append. simpl find.
    rewrite Ha, (IH Hp). simpl String.length.
    destruct (Z.ltb_spec (Z.of_nat (String.length p)) 0); lia.
Qed.

Lemma rfind_before (y : string) (c : ascii) (q : string) :
  rfind q c = -1 -> rfind (y ++ String c q) c = len y.
Proof.
  unfold len. intros H. induction y as [|a y IH].
  - simpl. rewrite H, Ascii.eqb_refl. reflexivity.
  - simpl String.append. simpl rfind. rewrite IH. simpl String.length.
    destruct (Z.leb_spec 0 (Z.of_nat (String.length y))); lia.
Qed.

Lemma substring_middle (p m q : string) :
  String.substring (String.length p) (String.length m) (p ++ m ++ q) = m.
Proof.
  induction p as [|a p IH]; simpl; [|exact IH].
  induction m as [|b m IHm]; simpl.
  - destruct q; reflexivity.
  - now rewrite IHm.
Qed.

Lemma slice_middle (p m q : string) :
  slice (p ++ m ++ q) (len p) (len p + len m) = m.
Proof.
  unfold slice, clamp. rewrite !len_append.
  pose proof (len_nonneg p). pose proof (len_nonneg m). pose proof (len_nonneg q).
  destruct (Z.ltb_spec (len p) 0); [lia|].
  destruct (Z.ltb_spec (len p + len m) 0); [lia|].
  rewrite !Z.min_l by lia.
  replace (len p + len m - len p) with (len m) by lia.
  unfold len. rewrite !Nat2Z.id. apply substring_middle.
Qed.

(** An array between prose: when the text before the array has no opening
    bracket, the text after it no closing bracket, and the response does
    not start with a fence, the window is the array. *)
Lemma window_in_prose (pre body post : string) :
  find pre "[" = -1 ->
  rfind post "]" = -1 ->
  startswith (strip (pre ++ "[" ++ body ++ "]" ++ post)) "```" = false ->
  has_window (pre ++ "[" ++ body ++ "]" ++ post) = true
  /\ json_str (pre ++ "[" ++ body ++ "]" ++ post) = "[" ++ body ++ "]".
Proof.
  intros Hpre Hpost Hfence.
  assert (Hclean : exists pre', cleaned (pre ++ "[" ++ body ++ "]" ++ post)
                                = pre' ++ ("[" ++ body ++ "]") ++ rstrip post
                                /\ find pre' "[" = -1).
  { unfold cleaned. rewrite Hfence. unfold strip.
    destruct (lstrip_before pre "[" (body ++ "]" ++ post) eq_refl) as [pre' [H1 H2]].
    exists pre'. split; [|auto].
    change ("[" ++ body ++ "]" ++ post) with (String "[" (body ++ "]" ++ post)).
    rewrite H1.
    replace (pre' ++ String "[" (body ++ "]" ++ post))
      with ((pre' ++ String "[" body) ++ String "]" post).
    - rewrite rstrip_after by reflexivity.
      rewrite append_assoc. simpl. now rewrite append_assoc.
    - rewrite append_assoc. reflexivity. }
  destruct Hclean as [pre' [Hc Hf]].
  assert (Hs : json_start (pre ++ "[" ++ body ++ "]" ++ post) = len pre').
  { unfold json_start. rewrite Hc. apply find_after. exact Hf. }
  assert (He : json_end (pre ++ "[" ++ body ++ "]" ++ post)
               = len pre' + len ("[" ++ body ++ "]")).
  { unfold json_end. rewrite Hc.
    replace (pre' ++ ("[" ++ body ++ "]") ++ rstrip post)
      with ((pre' ++ "[" ++ body) ++ String "]" (rstrip post)).
    - rewrite rfind_before by now apply rfind_rstrip_absent.
      rewrite !len_append. change (len "]") with 1. change (len "[") with 1. lia.
    - rewrite !append_assoc. simpl. reflexivity. }
  split.
  - unfold has_window. rewrite Hs, He. rewrite !len_append.
    pose proof (len_nonneg pre'). pose proof (len_nonneg body).
    change (len "]") with 1. change (len "[") with 1.
    apply andb_true_iff. split; [apply Z.leb_le|apply Z.ltb_lt]; lia.
  - unfold json_str. rewrite Hs, He, Hc. apply slice_middle.
Qed.

End ProseFacts.

Section MatchFacts.
Import PyStr Re Spec.
Local Open Scope nat_scope.

Lemma take_drop (n : nat) (s : string) : take n s ++ drop n s = s.
Proof.
  revert s. induction n as [|n IH]; intros [|c r]; simpl; try reflexivity.
  now rewrite IH.
Qed.

Lemma flat_body_spec (s : string) (k : nat) :
  flat_body s = Some k ->
  exists rest, s = take k s ++ String "}" rest
               /\ brace_free (take k s) = true /\ String.length (take k s) = k.
Proof.
  revert k. induction s as [|c r IH]; intros k; simpl; [discriminate|].
  destruct (Ascii.eqb c "}") eqn:E1.
  - intros H. inversion H. apply Ascii.eqb_eq in E1. subst. simpl. eauto.
  - destruct (Ascii.eqb c "{") eqn:E2; [discriminate|].
    destruct (flat_body r) as [k'|] eqn:Hb; [|discriminate].
    intros H. inversion H. subst. destruct (IH k' eq_refl) as [rest [H1 [H2 H3]]].
    exists rest. simpl. rewrite E1, E2, H2, H3. simpl. now rewrite <- H1.
Qed.

(** A match of the flat-object pattern is an opening brace, a text without
    braces, and a closing brace. *)
Lemma flat_object_match (s : string) (n : nat) :
  flat_object s = Some n ->
  1 <= n <= String.length s
  /\ exists body, take n s = String "{" (body ++ "}") /\ brace_free body = true.
Proof.
  unfold flat_object. destruct s as [|c r]; [discriminate|].
  destruct (Ascii.eqb c "{") eqn:E; [|discriminate].
  apply Ascii.eqb_eq in E. subst c.
  destruct (flat_body r) as [k|] eqn:Hb; [|discriminate].
  intros H. inversion H. subst. clear H.
  destruct (flat_body_spec _ _ Hb) as [rest [H1 [H2 H3]]].
  assert (Hl : String.length r = k + S (String.length rest)).
  { rewrite H1 at 1. clear - H3. rewrite <- H3 at 2.
    generalize (take k r). intros t. induction t as [|x t IH]; simpl; [reflexivity|].
    now rewrite IH. }
  split; [cbn [String.length]; lia|].
  exists (take k r). split; [|exact H2].
  change (take (S (S k)) (String "{" r)) with (String "{" (take (S k) r)).
  f_equal. rewrite H1 at 1. clear - H3.
  revert H3. generalize (take k r). intros t. revert k.
  induction t as [|x t IH]; intros k Hk; simpl in Hk; subst; simpl; [reflexivity|].
  f_equal. apply IH. reflexivity.
Qed.

(** The matches of [re.findall] lie in the text in the order in which they
    are listed, one after another. *)
Lemma findall_in_order (p : matcher) :
  (forall s n, p s = Some n -> 1 <= n <= String.length s) ->
  forall s skip,
    skip <= String.length s ->
    exists gaps tail,
      List.length gaps = List.length (findall_from p skip s)
      /\ drop skip s = weave gaps (findall_from p skip s) ++ tail.
Proof.
  intros Hp. induction s as [|c r IH]; intros skip Hs.
  - exists [], "". destruct skip; [split; reflexivity|simpl in Hs; lia].
  - destruct skip as [|k].
    + cbn [findall_from drop]. destruct (p (String c r)) as [n|] eqn:Hm.
      * destruct (Hp _ _ Hm) as [Hn1 Hn2]. cbn [String.length] in Hn2.
        destruct (IH (Nat.pred n)) as [gaps [tail [Hl Hw]]]; [lia|].
        exists ("" :: gaps), tail. split; [simpl; now rewrite Hl|].
        cbn [weave]. change ("" ++ ?x) with x. rewrite append_assoc, <- Hw.
        destruct n as [|n]; [lia|]. simpl. now rewrite take_drop.
      * destruct (IH 0) as [gaps [tail [Hl Hw]]]; [lia|]. cbn [drop] in Hw.
        destruct gaps as [|g gs], (findall_from p 0 r) as [|m ms]; try discriminate.
        -- exists [], (String c r). split; reflexivity.
        -- exists (String c g :: gs), tail. split; [exact Hl|].
           cbn [weave] in *. rewrite Hw. simpl. now rewrite !append_assoc.
    + cbn [findall_from drop]. apply IH. cbn [String.length] in Hs. lia.
Qed.

(** The flat objects that the extractor tries to decode make up the raw
    text together with the gaps between them, in the order of the list. *)
Lemma flat_matches_in_order (response : string) :
  exists gaps tail,
    List.length gaps = List.length (findall flat_object response)
    /\ response = weave gaps (findall flat_object response) ++ tail.
Proof.
  destruct (findall_in_order flat_object
              (fun s n H => proj1 (flat_object_match s n H)) response 0)
    as [gaps [tail H]]; [lia|].
  exists gaps, tail. exact H.
Qed.

End MatchFacts.

(** * Claims about the structured extractor *)

Section ExtractorClaims.
Import PyStr Json Py Effects Extractor Spec.

(** The three cases of [test_api_gateway.py] and the fenced scenario of
    the specification. *)
Example parse_valid :
  _parse_json_array (lit "[{'question': 'Test?', 'answer': 'Yes'}]")
  = Return (JArr [JObj [(codes "question", JStr (codes "Test?"));
                        (codes "answer", JStr (codes "Yes"))]]).
Proof. vm_compute. reflexivity. Qed.

Example parse_with_extra_text :
  _parse_json_array (lit "Here is the JSON:|[{'key': 'value'}]|That was it.")
  = Return (JArr [JObj [(codes "key", JStr (codes "value"))]]).
Proof. vm_compute. reflexivity. Qed.

Example parse_invalid :
  _parse_json_array "This is not JSON" = Return (JArr []).
Proof. vm_compute. reflexivity. Qed.

Example parse_fenced :
  _parse_json_array (lit "```json|[{'a':1}]|```")
  = Return (JArr [JObj [(codes "a", JInt 1)]]).
Proof. vm_compute. reflexivity. Qed.

Example parse_empty_array :
  _parse_json_array (lit "Nothing to report: []") = Return (JArr []).
Proof. vm_compute. reflexivity. Qed.

(** The backend looks for the window in the response as it is, and
    returns what the window decodes to. *)
Lemma backend_returns_window (fallback : value) (response : string) (v : value) :
  0 <= find response "[" ->
  find response "[" < rfind response "]" + 1 ->
  loads (slice response (find response "[") (rfind response "]" + 1)) = Some v ->
  Backend.parse_or fallback response = Return v /\ exists l, v = JArr l.
Proof.
  intros H0 H1 Hv. unfold Backend.parse_or.
  assert (Hc : (0 <=? find response "[")
               && (find response "[" <? rfind response "]" + 1) = true).
  { apply andb_true_iff. split; [now apply Z.leb_le|now apply Z.ltb_lt]. }
  rewrite Hc, Hv.
  destruct (slice_find_head response "[" _ H0 H1) as [r Hr].
  rewrite Hr in Hv. destruct (loads_bracket _ _ Hv) as [l ->].
  split; [reflexivity|eauto].
Qed.

(** An array between prose is returned as it decodes, provided the prose
    before it has no opening bracket, the prose after it has no closing
    bracket, and the response does not start with a fence. *)
Lemma extract_array_in_prose (pre body post : string) (v : value) :
  find pre "[" = -1 ->
  rfind post "]" = -1 ->
  startswith (strip (pre ++ "[" ++ body ++ "]" ++ post)) "```" = false ->
  loads ("[" ++ body ++ "]") = Some v ->
  _parse_json_array (pre ++ "[" ++ body ++ "]" ++ post) = Return v.
Proof.
  intros Hpre Hpost Hf Hv.
  destruct (window_in_prose pre body post Hpre Hpost Hf) as [Hw Hj].
  rewrite parse_json_array_cases. unfold first_attempt. rewrite Hw, Hj, Hv.
  destruct (loads_bracket _ _ Hv) as [l ->]. reflexivity.
Qed.

(** Prose with a bracket of its own spoils the window: the array is not
    returned as such, and only its flat objects are salvaged. *)
Example bracket_in_prose :
  _parse_json_array (lit "Here [as requested]: [1, 2]") = Return (JArr [])
  /\ _parse_json_array (lit "Here [as requested]: [{'a': {'b': 1}}, {'c': 2}]")
     = Return (JArr [JObj [(codes "b", JInt 1)]; JObj [(codes "c", JInt 2)]]).
Proof. vm_compute. split; reflexivity. Qed.



(** C4, counterexample. The response consists of one flat object. It
    contains no array and one decodable flat object, yet the extractor
    returns no record: the whole text decodes, to a value that is not a
    list. *)
Lemma single_object_is_dropped :
  contains_array (lit "{'front': 'Q', 'back': 'A'}") = false
  /\ flat_objects (lit "{'front': 'Q', 'back': 'A'}")
     = [JObj [(codes "front", JStr (codes "Q")); (codes "back", JStr (codes "A"))]]
  /\ _parse_json_array (lit "{'front': 'Q', 'back': 'A'}") = Return (JArr [])
  /\ _parse_json_array (lit "{'front': 'Q', 'back': 'A'}")
     <> Return (JArr (flat_objects (lit "{'front': 'Q', 'back': 'A'}"))).
Proof. vm_compute. repeat split; try reflexivity. discriminate. Qed.

(** C4, amended. When the first decoding attempt raises a decode error,
    the extractor returns the decoded flat objects of the raw text, in
    their order of appearance, without those that fail to decode. When
    the attempt succeeds, its value is returned if it is a list, and the
    empty list otherwise. *)
Theorem extract_salvages_after_decode_error (response : string) :
  match first_attempt response with
  | None => _parse_json_array response = Return (JArr (flat_objects response))
  | Some v =>
      _parse_json_array response = Return (if is_list v then v else JArr [])
  end.
Proof.
  rewrite parse_json_array_cases. destruct (first_attempt response); reflexivity.
Qed.





End ExtractorClaims.

(** * The completion client and the quiz orchestrator *)

Section ClientFacts.
Import PyStr Json Py Effects Extractor Spec Gateway.

Variable E : environment.

(** One call of the completion client: one request, its result, and the
    outcome that the result determines. *)
Lemma call_ollama_run (prompt : string) (system_prompt : option string)
      (model : string) (t : trace) :
  let p := request model prompt system_prompt in
  let r := endpoint E (sent t) (generate_url E) p in
  _call_ollama E prompt system_prompt model t
  = (client_outcome E r, (t ++ [Sent (generate_url E) p; Received r])%list).
Proof.
  intros p r. unfold _call_ollama, try_except, bind, post.
  fold (generate_url E). fold (request model prompt system_prompt). fold p. fold r.
  destruct r as [c b|m|m|m]; try reflexivity.
  cbn [fst snd]. unfold raise_for_status, client_outcome, is_success.
  fold (generate_url E).
  destruct ((200 <=? c) && (c <=? 299)); [|reflexivity].
  destruct b as [s| |m]; cbn; try reflexivity.
  destruct (is_empty (strip s)); reflexivity.
Qed.

End ClientFacts.

Section QuizFacts.
Import PyStr Json Py Effects Extractor Spec Gateway.

Variable E : environment.

Lemma sent_app (t u : trace) : sent (t ++ u)%list = (sent t + sent u)%nat.
Proof. unfold sent. now rewrite filter_app, length_app. Qed.

Lemma sent_exchange (t : trace) (u : string) (p : payload) (r : http_result) :
  sent (t ++ [Sent u p; Received r])%list = S (sent t).
Proof.
  rewrite sent_app. change (sent [Sent u p; Received r]) with 1%nat. lia.
Qed.

Lemma multiple_choice_block_run (text qt model : string) (result : dict) (t : trace) :
  multiple_choice_block E text qt model result t =
  if in_list qt ["multiple_choice"; "all"] then
    let p := multiple_choice_request model text in
    let r := endpoint E (sent t) (generate_url E) p in
    (match checked (subtask multiple_choice_failed (client_outcome E r)) with
     | Return v => Return (dict_set result (codes "multiple_choice") v)
     | Raise e => Raise e
     end, (t ++ [Sent (generate_url E) p; Received r])%list)
  else (Return result, t).
Proof.
  unfold multiple_choice_block. destruct (in_list qt _); [|reflexivity].
  unfold try_except, bind, lift. rewrite call_ollama_run.
  fold (multiple_choice_request model text).
  cbv zeta. destruct (client_outcome E _) as [response|e]; [|reflexivity].
  cbn [subtask]. destruct (_parse_json_array response) as [v|e]; [|reflexivity].
  destruct (not_or_empty v) as [[|]|e]; try reflexivity.
  cbn [checked]. destruct (check_questions (iter v)); reflexivity.
Qed.

Lemma fill_blank_block_run (text qt model : string) (result : dict) (t : trace) :
  fill_blank_block E text qt model result t =
  if in_list qt ["fill_blank"; "all"] then
    let p := fill_blank_request model text in
    let r := endpoint E (sent t) (generate_url E) p in
    (match subtask fill_blank_failed (client_outcome E r) with
     | Return v => Return (dict_set result (codes "fill_blank") v)
     | Raise e => if String.eqb qt "fill_blank" then Raise e else Return result
     end, (t ++ [Sent (generate_url E) p; Received r])%list)
  else (Return result, t).
Proof.
  unfold fill_blank_block. destruct (in_list qt _); [|reflexivity].
  unfold try_except, bind, lift. rewrite call_ollama_run.
  fold (fill_blank_request model text).
  cbv zeta. destruct (client_outcome E _) as [response|e];
    [|unfold raise, ret; cbn [subtask]; destruct (String.eqb qt _); reflexivity].
  cbn [subtask]. destruct (_parse_json_array response) as [v|e];
    [|unfold raise, ret; destruct (String.eqb qt _); reflexivity].
  destruct (not_or_empty v) as [[|]|e]; unfold raise, ret;
    try destruct (String.eqb qt _); reflexivity.
Qed.

Lemma short_answer_block_run (text qt model : string) (result : dict) (t : trace) :
  short_answer_block E text qt model result t =
  if in_list qt ["short_answer"; "all"] then
    let p := short_answer_request model text in
    let r := endpoint E (sent t) (generate_url E) p in
    (match subtask short_answer_failed (client_outcome E r) with
     | Return v => Return (dict_set result (codes "short_answer") v)
     | Raise e => if String.eqb qt "short_answer" then Raise e else Return result
     end, (t ++ [Sent (generate_url E) p; Received r])%list)
  else (Return result, t).
Proof.
  unfold short_answer_block. destruct (in_list qt _); [|reflexivity].
  unfold try_except, bind, lift. rewrite call_ollama_run.
  fold (short_answer_request model text).
  cbv zeta. destruct (client_outcome E _) as [response|e];
    [|unfold raise, ret; cbn [subtask]; destruct (String.eqb qt _); reflexivity].
  cbn [subtask]. destruct (_parse_json_array response) as [v|e];
    [|unfold raise, ret; destruct (String.eqb qt _); reflexivity].
  destruct (not_or_empty v) as [[|]|e]; unfold raise, ret;
    try destruct (String.eqb qt _); reflexivity.
Qed.

End QuizFacts.

Section SubtaskFacts.
Import PyStr Json Py Effects Extractor Spec Gateway.

Variable E : environment.

Lemma client_raises_exception (r : http_result) (e : exn) :
  client_outcome E r = Raise e -> exists m, e = Exception m.
Proof.
  destruct r as [c b|m|m|m]; cbn [client_outcome].
  - destruct (is_success c).
    + destruct b as [s| |m]; cbv zeta.
      * destruct (is_empty (strip s)); intros H; inversion H; eauto.
      * destruct (is_empty (strip "")); intros H; inversion H; eauto.
      * intros H; inversion H; eauto.
    + intros H; inversion H; eauto.
  - intros H; inversion H; eauto.
  - intros H; inversion H; eauto.
  - intros H; inversion H; eauto.
Qed.

Lemma client_returns (r : http_result) (text : string) :
  client_outcome E r = Return text ->
  exists s, exchange_text r = Some s /\ text = strip s /\ is_empty (strip s) = false.
Proof.
  destruct r as [c b|m|m|m]; cbn [client_outcome exchange_text]; try discriminate.
  destruct (is_success c); [|discriminate].
  destruct b as [s| |m]; cbv zeta; try discriminate.
  destruct (is_empty (strip s)) eqn:He; [discriminate|].
  intros H; inversion H. eauto.
Qed.

Lemma not_or_empty_list (l : list value) :
  not_or_empty (JArr l) = Return (match l with [] => true | _ => false end).
Proof. destruct l; reflexivity. Qed.

(** A sub-task returns the records extracted from the completion if
    there are any, and raises otherwise. *)
Lemma subtask_cases (msg : string) (o : outcome string) :
  subtask msg o =
  match o with
  | Raise e => Raise e
  | Return response =>
      match _parse_json_array response with
      | Return (JArr (q :: l)) => Return (JArr (q :: l))
      | _ => Raise (Exception msg)
      end
  end.
Proof.
  destruct o as [response|e]; [|reflexivity]. cbn [subtask].
  destruct (parse_json_array_total response) as [l ->].
  rewrite not_or_empty_list. destruct l; reflexivity.
Qed.

Lemma subtask_no_records (msg : string) (r : http_result) :
  yields_no_records r = true ->
  exists m, subtask msg (client_outcome E r) = Raise (Exception m).
Proof.
  unfold yields_no_records. rewrite subtask_cases.
  destruct (client_outcome E r) as [text|e] eqn:Hc.
  - destruct (client_returns _ _ Hc) as [s [-> [-> He]]]. rewrite He. cbn [orb].
    destruct (parse_json_array_total (strip s)) as [l ->].
    destruct l; [eauto|discriminate].
  - intros _. destruct (client_raises_exception _ _ Hc) as [m ->]. eauto.
Qed.


Lemma subtask_returns (msg : string) (o : outcome string) (v : value) :
  subtask msg o = Return v -> exists q l, v = JArr (q :: l).
Proof.
  rewrite subtask_cases. destruct o as [response|e]; [|discriminate].
  destruct (_parse_json_array response) as [[| | | | |[|q l]|]|]; try discriminate.
  intros H; inversion H. eauto.
Qed.

Lemma checked_returns (o : outcome value) (v : value) :
  checked o = Return v -> o = Return v.
Proof.
  destruct o as [w|e]; cbn [checked]; [|discriminate].
  destruct (check_questions (iter w)); [|discriminate].
  intros H; inversion H. reflexivity.
Qed.

End SubtaskFacts.

Section OrchestratorFacts.
Import PyStr Json Py Effects Extractor Spec Gateway.

Variable E : environment.
Variable text : string.
Variable t : trace.

Let u := generate_url E.
Let p1 := multiple_choice_request (quiz_model E) text.
Let p2 := fill_blank_request (quiz_model E) text.
Let p3 := short_answer_request (quiz_model E) text.

Lemma nothing_generated_head (k : pystr) (q : value) (l : list value) (d : dict) :
  nothing_generated ((k, JArr (q :: l)) :: d) = false.
Proof. reflexivity. Qed.

(** A request for all kinds: the multiple choice sub-task runs first and
    its failure ends the run; the other two sub-tasks follow, and their
    failures are passed over. *)
Lemma quiz_all_run :
  let r1 := endpoint E (sent t) u p1 in
  let r2 := endpoint E (S (sent t)) u p2 in
  let r3 := endpoint E (S (S (sent t))) u p3 in
  _generate_quiz_with_llm E text "all" t =
  match checked (subtask multiple_choice_failed (client_outcome E r1)) with
  | Raise e => (Raise e, t ++ [Sent u p1; Received r1])%list
  | Return v1 =>
      let d1 := [(codes "multiple_choice", v1)] in
      let d2 := match subtask fill_blank_failed (client_outcome E r2) with
                | Return v => (d1 ++ [(codes "fill_blank", v)])%list
                | Raise _ => d1
                end in
      let d3 := match subtask short_answer_failed (client_outcome E r3) with
                | Return v => (d2 ++ [(codes "short_answer", v)])%list
                | Raise _ => d2
                end in
      (Return d3,
       (t ++ [Sent u p1; Received r1; Sent u p2; Received r2;
              Sent u p3; Received r3])%list)
  end.
Proof.
  intros r1 r2 r3. unfold _generate_quiz_with_llm, bind.
  fold (quiz_model E).
  rewrite multiple_choice_block_run. decide_in_list. cbv zeta.
  fold u p1 r1.
  destruct (checked (subtask multiple_choice_failed (client_outcome E r1)))
    as [v1|e] eqn:H1; [|reflexivity].
  apply checked_returns in H1. destruct (subtask_returns _ _ _ H1) as [q [l ->]].
  rewrite fill_blank_block_run. decide_in_list. cbv zeta.
  rewrite sent_exchange. fold u p2 r2.
  destruct (subtask fill_blank_failed (client_outcome E r2)) as [v2|e2];
    rewrite short_answer_block_run; decide_in_list; cbv zeta;
    rewrite sent_exchange, sent_exchange; fold u p3 r3;
    rewrite <- !app_assoc; cbn [app];
    destruct (subtask short_answer_failed (client_outcome E r3)) as [v3|e3];
    reflexivity.
Qed.

Lemma quiz_multiple_choice_run :
  let r1 := endpoint E (sent t) u p1 in
  _generate_quiz_with_llm E text "multiple_choice" t =
  (match checked (subtask multiple_choice_failed (client_outcome E r1)) with
   | Raise e => Raise e
   | Return v1 => Return [(codes "multiple_choice", v1)]
   end, (t ++ [Sent u p1; Received r1])%list).
Proof.
  intros r1. unfold _generate_quiz_with_llm, bind. fold (quiz_model E).
  rewrite multiple_choice_block_run. decide_in_list. cbv zeta. fold u p1 r1.
  destruct (checked (subtask multiple_choice_failed (client_outcome E r1)))
    as [v1|e] eqn:H1; [|reflexivity].
  apply checked_returns in H1. destruct (subtask_returns _ _ _ H1) as [q [l ->]].
  rewrite fill_blank_block_run. decide_in_list.
  rewrite short_answer_block_run. decide_in_list.
  reflexivity.
Qed.

Lemma quiz_fill_blank_run :
  let r2 := endpoint E (sent t) u p2 in
  _generate_quiz_with_llm E text "fill_blank" t =
  (match subtask fill_blank_failed (client_outcome E r2) with
   | Raise e => Raise e
   | Return v => Return [(codes "fill_blank", v)]
   end, (t ++ [Sent u p2; Received r2])%list).
Proof.
  intros r2. unfold _generate_quiz_with_llm, bind. fold (quiz_model E).
  rewrite multiple_choice_block_run. decide_in_list.
  rewrite fill_blank_block_run. decide_in_list. cbv zeta. fold u p2 r2.
  destruct (subtask fill_blank_failed (client_outcome E r2)) as [v|e] eqn:H2;
    [|reflexivity].
  destruct (subtask_returns _ _ _ H2) as [q [l ->]].
  rewrite short_answer_block_run. decide_in_list. reflexivity.
Qed.

Lemma quiz_short_answer_run :
  let r3 := endpoint E (sent t) u p3 in
  _generate_quiz_with_llm E text "short_answer" t =
  (match subtask short_answer_failed (client_outcome E r3) with
   | Raise e => Raise e
   | Return v => Return [(codes "short_answer", v)]
   end, (t ++ [Sent u p3; Received r3])%list).
Proof.
  intros r3. unfold _generate_quiz_with_llm, bind. fold (quiz_model E).
  rewrite multiple_choice_block_run. decide_in_list.
  rewrite fill_blank_block_run. decide_in_list.
  rewrite short_answer_block_run. decide_in_list. cbv zeta. fold u p3 r3.
  destruct (subtask short_answer_failed (client_outcome E r3)) as [v|e] eqn:H3;
    [|reflexivity].
  destruct (subtask_returns _ _ _ H3) as [q [l ->]]. reflexivity.
Qed.

End OrchestratorFacts.

(** * Claims about the completion client and the orchestrator *)

Section OrchestratorClaims.
Import PyStr Json Py Effects Extractor Spec Gateway.

Lemma in_list_cases (x : string) (xs : list string) :
  in_list x xs = true -> In x xs.
Proof.
  unfold in_list. intros H. apply existsb_exists in H as [y [Hy He]].
  apply String.eqb_eq in He. now subst.
Qed.

(** The gateway rejects an empty text and an unknown kind with status 400,
    and sends nothing. *)
Lemma generate_quiz_rejects (E : environment) (request : GenerateQuizRequest)
      (t : trace) :
  is_empty (strip (quiz_text request))
  || negb (in_list (lower (quiz_type request)) valid_types) = true ->
  exists detail,
    generate_quiz E request t = (Raise (HTTPException 400 detail), t).
Proof.
  intros H. unfold generate_quiz, try_except.
  destruct (is_empty (strip (quiz_text request))).
  - eexists. reflexivity.
  - cbn [orb] in H. rewrite H. eexists. reflexivity.
Qed.

(** The backend rejects an empty text with status 500, and sends nothing. *)
Lemma generate_content_rejects_empty (E : environment)
      (request : Backend.GenerateContentRequest) (t : trace) :
  is_empty (strip (Backend.content_text request)) = true ->
  Backend.generate_content E request t
  = (Raise (HTTPException 500 "Error generating content: 400: Text input is required"),
     t).
Proof.
  intros H. unfold Backend.generate_content, try_except.
  assert (Hl : is_empty (Backend.content_text request)
               || (len (strip (Backend.content_text request)) =? 0) = true).
  { destruct (strip (Backend.content_text request)); [|discriminate].
    apply orb_true_r. }
  rewrite Hl. reflexivity.
Qed.

(** The gateway's completion client never returns a blank text. *)
Lemma completion_is_never_blank (E : environment) (prompt : string)
      (system_prompt : option string) (model : string) (t : trace) (s : string) :
  fst (_call_ollama E prompt system_prompt model t) = Return s ->
  is_empty s = false.
Proof.
  rewrite call_ollama_run. cbn [fst]. intros H.
  apply client_returns in H as [s0 [_ [-> He]]]. exact He.
Qed.

(** A successful exchange whose text is blank makes the gateway's client
    raise. *)
Lemma blank_completion_is_refused (E : environment) (prompt : string)
      (system_prompt : option string) (model : string) (t : trace) (s : string) :
  exchange_text (endpoint E (sent t) (generate_url E)
                   (request model prompt system_prompt)) = Some s ->
  is_empty (strip s) = true ->
  fst (_call_ollama E prompt system_prompt model t)
  = Raise (Exception ("Failed to generate content with AI: " ++ empty_response)).
Proof.
  rewrite call_ollama_run. cbn [fst].
  destruct (endpoint E (sent t) (generate_url E) (request model prompt system_prompt))
    as [c b|m|m|m]; cbn [exchange_text client_outcome]; try discriminate.
  destruct (is_success c); [|destruct b; discriminate].
  destruct b as [s'| |m]; try discriminate.
  - intros H He. inversion H. subst. cbv zeta. now rewrite He.
  - intros _ _. reflexivity.
Qed.

(** C7. A request for one kind whose sub-task yields no record is answered
    with an error, never with a success that carries an empty list. It
    makes no difference whether the completion call failed, returned a
    blank text, or returned a text from which nothing is extracted. *)
Theorem single_kind_without_records_fails (E : environment)
        (request : GenerateQuizRequest) (t : trace) :
  is_empty (strip (quiz_text request)) = false ->
  in_list (lower (quiz_type request))
          ["multiple_choice"; "fill_blank"; "short_answer"] = true ->
  (forall p, yields_no_records (endpoint E (sent t) (generate_url E) p) = true) ->
  exists detail t',
    generate_quiz E request t = (Raise (HTTPException 500 detail), t')
    /\ sent t' = S (sent t).
Proof.
  intros Ht Hk Hr. unfold generate_quiz, try_except, bind. cbv zeta. rewrite Ht.
  apply in_list_cases in Hk.
  destruct Hk as [<-|[<-|[<-|[]]]]; decide_in_list; cbn [negb]; cbv beta.
  - rewrite quiz_multiple_choice_run. cbv zeta.
    destruct (subtask_no_records E multiple_choice_failed _ (Hr (multiple_choice_request (quiz_model E) (strip (quiz_text request))))) as [m ->].
    cbn [checked]. do 2 eexists. split; [reflexivity|apply sent_exchange].
  - rewrite quiz_fill_blank_run. cbv zeta.
    destruct (subtask_no_records E fill_blank_failed _ (Hr (fill_blank_request (quiz_model E) (strip (quiz_text request))))) as [m ->].
    do 2 eexists. split; [reflexivity|apply sent_exchange].
  - rewrite quiz_short_answer_run. cbv zeta.
    destruct (subtask_no_records E short_answer_failed _ (Hr (short_answer_request (quiz_model E) (strip (quiz_text request))))) as [m ->].
    do 2 eexists. split; [reflexivity|apply sent_exchange].
Qed.

(** The flashcards handler of the gateway has no such check: when nothing
    is extracted it answers with a success that carries an empty list. *)
Example flashcards_may_be_empty :
  fst (generate_flashcards (scripted [says "I cannot help"])
         (mkSummaryRequest "The cell is the unit of life.") [])
  = Return (mkJSONResponse
              [(codes "success", JBool true);
               (codes "flashcards", JArr []);
               (codes "message", JStr (codes "Flashcards generated successfully"))]).
Proof. vm_compute. reflexivity. Qed.

Lemma single_kind_without_records_fails_witness :
  exists detail t',
    generate_quiz (scripted [says "[]"])
                  (mkQuizRequest "The cell is the unit of life." "multiple_choice") []
    = (Raise (HTTPException 500 detail), t')
    /\ sent t' = 1%nat.
Proof.
  apply (single_kind_without_records_fails (scripted [says "[]"])
           (mkQuizRequest "The cell is the unit of life." "multiple_choice") []).
  - vm_compute. reflexivity.
  - vm_compute. reflexivity.
  - intros p. vm_compute. reflexivity.
Defined.

End OrchestratorClaims.

Section AggregationClaims.
Import PyStr Json Py Effects Extractor Spec Gateway.


(** With the kind [all], a failure of the multiple choice sub-task ends the
    run: the exception is raised again, and no further request is sent. *)
Lemma all_fails_with_multiple_choice (E : environment) (text : string) (t : trace) :
  let u := generate_url E in
  let p := multiple_choice_request (quiz_model E) text in
  let r := endpoint E (sent t) u p in
  yields_no_records r = true ->
  exists m,
    _generate_quiz_with_llm E text "all" t
    = (Raise (Exception m), (t ++ [Sent u p; Received r])%list).
Proof.
  intros u p r Hr. rewrite quiz_all_run. cbv zeta. fold u p r.
  destruct (subtask_no_records E multiple_choice_failed r Hr) as [m ->].
  cbn [checked]. eauto.
Qed.

(** With the kind [all] the run fails exactly when the multiple choice
    sub-task fails, and with its exception: the closing test for a run in
    which every kind failed is never met. *)
Lemma all_fails_exactly_with_multiple_choice (E : environment) (text : string)
      (t : trace) (e : exn) :
  let r := endpoint E (sent t) (generate_url E)
             (multiple_choice_request (quiz_model E) text) in
  fst (_generate_quiz_with_llm E text "all" t) = Raise e
  <-> checked (subtask multiple_choice_failed (client_outcome E r)) = Raise e.
Proof.
  intros r. rewrite quiz_all_run. cbv zeta. fold r.
  destruct (checked (subtask multiple_choice_failed (client_outcome E r)));
    cbn [fst]; split; intros H; first [discriminate H | now inversion H].
Qed.

(** C1, the failing run. The request names [all]; the completion call of
    the multiple choice sub-task times out, and the endpoint would answer
    the other two sub-tasks with two questions each. The request fails,
    and only one request was sent. The same holds when the multiple choice
    completion is merely unusable. *)
Theorem all_request_fails_on_multiple_choice :
  let E := scripted [TimedOut "read timeout"; says two_questions; says two_questions] in
  let E' := scripted [says "I cannot help"; says two_questions; says two_questions] in
  let request := mkQuizRequest "The cell is the unit of life." "all" in
  fst (generate_quiz E request [])
  = Raise (HTTPException 500
             "Error generating quiz: LLM generation timed out after 15 minutes. The model may be too slow. Try using a smaller/faster model or shorter text.")
  /\ sent (snd (generate_quiz E request [])) = 1%nat
  /\ fst (generate_quiz E' request [])
     = Raise (HTTPException 500
                "Error generating quiz: Failed to generate multiple choice questions: LLM returned empty or invalid response")
  /\ sent (snd (generate_quiz E' request [])) = 1%nat.
Proof. vm_compute. repeat split; reflexivity. Qed.

(** The same endpoint answers, with the failure on the fill-in-the-blank
    sub-task instead: the request succeeds with the other two kinds. *)
Example all_request_survives_fill_blank :
  let E := scripted [says two_questions; TimedOut "read timeout"; says two_questions] in
  let request := mkQuizRequest "The cell is the unit of life." "all" in
  exists quiz message,
    fst (generate_quiz E request [])
    = Return (mkJSONResponse [(codes "success", JBool true);
                              (codes "quiz", JObj quiz);
                              (codes "message", message)])
    /\ map fst quiz = [codes "multiple_choice"; codes "short_answer"]
    /\ sent (snd (generate_quiz E request [])) = 3%nat.
Proof. vm_compute. do 2 eexists. repeat split; reflexivity. Qed.

(** C9, counterexample. All three sub-tasks of a request for [all]
    succeed. The second request is sent after the first result was
    received: the requests are not issued jointly. *)
Lemma subtasks_are_not_issued_jointly :
  let E := scripted [says two_questions; says two_questions; says two_questions] in
  let t := snd (_generate_quiz_with_llm E "The cell is the unit of life." "all" []) in
  issued_jointly t = false
  /\ map is_sent t = [true; false; true; false; true; false].
Proof. vm_compute. split; reflexivity. Qed.

(** C9, amended. For the kind [all] the completion requests go out one
    after another, each followed at once by its own result, in the order
    multiple choice, fill-in-the-blank, short answer. *)
Theorem subtasks_run_one_after_another (E : environment) (text : string) (t : trace) :
  exists delta n,
    snd (_generate_quiz_with_llm E text "all" t) = (t ++ delta)%list
    /\ sequential delta = true
    /\ (1 <= n <= 3)%nat
    /\ prompts_sent delta
       = firstn n [multiple_choice_prompt text; fill_blank_prompt text;
                   short_answer_prompt text].
Proof.
  rewrite quiz_all_run. cbv zeta.
  destruct (checked _) as [v|e].
  - eexists. exists 3%nat. cbn [snd]. split; [reflexivity|].
    split; [reflexivity|]. split; [lia|reflexivity].
  - eexists. exists 1%nat. cbn [snd]. split; [reflexivity|].
    split; [reflexivity|]. split; [lia|reflexivity].
Qed.

(** C5, the failing run. The exchange succeeds and the text of the
    response is blank. The backend's client returns the empty string, and
    [generate_content] answers with a success whose summary is empty. *)
Theorem backend_returns_blank_completion :
  let E := scripted [says "   "] in
  fst (Backend._call_ollama E "prompt" (Some "system") []) = Return ""
  /\ fst (Backend.generate_content E (Backend.mkContentRequest "Notes" "summary") [])
     = Return (mkJSONResponse
                 [(codes "success", JBool true);
                  (codes "content", JObj [(codes "summary", JStr [])]);
                  (codes "message", JStr (codes "Content generated successfully"))]).
Proof. vm_compute. split; reflexivity. Qed.

(** C8, the failing run. The kind is none of the backend's kinds. The
    backend sends nothing, and answers with a success whose content is
    empty. *)
Theorem backend_accepts_unknown_kind :
  Backend.generate_content (scripted []) (Backend.mkContentRequest "Notes" "quiz") []
  = (Return (mkJSONResponse
               [(codes "success", JBool true);
                (codes "content", JObj []);
                (codes "message", JStr (codes "Content generated successfully"))]),
     []).
Proof. vm_compute. reflexivity. Qed.

End AggregationClaims.

Section SizingClaims.
Import PyStr Json Py Effects Extractor Spec Gateway.

Lemma num_questions_band (n : Z) :
  num_questions n = nth (band n) quiz_ranges "".
Proof.
  unfold num_questions, band.
  destruct (Z.ltb_spec 10000 n), (Z.ltb_spec 5000 n), (Z.ltb_spec 3000 n),
    (Z.leb_spec n 3000), (Z.leb_spec n 5000), (Z.leb_spec n 10000);
    try lia; reflexivity.
Qed.

Lemma num_flashcards_band (n : Z) :
  num_flashcards n = nth (band n) flashcard_ranges "".
Proof.
  unfold num_flashcards, band.
  destruct (Z.ltb_spec 10000 n), (Z.ltb_spec 5000 n), (Z.ltb_spec 3000 n),
    (Z.leb_spec n 3000), (Z.leb_spec n 5000), (Z.leb_spec n 10000);
    try lia; reflexivity.
Qed.

Lemma band_monotone (n m : Z) : n <= m -> (band n <= band m)%nat.
Proof.
  unfold band. intros H.
  destruct (Z.leb_spec n 3000), (Z.leb_spec n 5000), (Z.leb_spec n 10000),
    (Z.leb_spec m 3000), (Z.leb_spec m 5000), (Z.leb_spec m 10000); lia.
Qed.

(** A longer text never gets a lower target range. *)
Lemma ranges_monotone (n m : Z) :
  n <= m ->
  range_lo (num_questions n) <= range_lo (num_questions m)
  /\ range_hi (num_questions n) <= range_hi (num_questions m)
  /\ range_lo (num_flashcards n) <= range_lo (num_flashcards m)
  /\ range_hi (num_flashcards n) <= range_hi (num_flashcards m).
Proof.
  intros H. apply band_monotone in H.
  rewrite !num_questions_band, !num_flashcards_band.
  assert (Hn : (band n <= 3)%nat) by (unfold band; repeat destruct (_ <=? _); lia).
  assert (Hm : (band m <= 3)%nat) by (unfold band; repeat destruct (_ <=? _); lia).
  destruct (band n) as [|[|[|[|?]]]]; destruct (band m) as [|[|[|[|?]]]];
    try lia; vm_compute; repeat split; discriminate.
Qed.

(** C6, counterexample. The fill-in-the-blank prompt asks for 5-7
    questions for a text of 10,001 characters as for a text of one
    character; and for flashcards the range of the second band is narrower
    than the range of the first. *)
Lemma range_is_not_always_banded_and_wider :
  len (filler (Z.to_nat 10001)) = 10001
  /\ band 10001 = 3%nat /\ band 1 = 0%nat
  /\ String.prefix
       "Based on the following text, generate 5-7 fill-in-the-blank questions"
       (fill_blank_prompt (filler (Z.to_nat 10001))) = true
  /\ String.prefix
       "Based on the following text, generate 5-7 fill-in-the-blank questions"
       (fill_blank_prompt (filler (Z.to_nat 1))) = true
  /\ range_width (num_flashcards 3000) = 4
  /\ range_width (num_flashcards 3001) = 3
  /\ (band 3000 < band 3001)%nat.
Proof. vm_compute. repeat split; try reflexivity; try lia. Qed.

(** C6, amended. The prompts for multiple choice questions and for
    flashcards state a range that the length of the text determines
    through the four bands; from band to band both ends of the range
    rise, and for multiple choice questions the range widens too. The
    prompts for fill-in-the-blank and for short answer questions ask for
    5-7 questions whatever the length. *)
Theorem sizing_bands (text : string) (n : Z) :
  (exists rest,
      multiple_choice_prompt text
      = "Based on the following text, generate " ++ num_questions (len text)
          ++ " multiple choice questions" ++ rest)
  /\ (exists rest,
         flashcards_prompt text
         = "Based on the following text, generate " ++ num_flashcards (len text)
             ++ " flashcards" ++ rest)
  /\ num_questions n = nth (band n) quiz_ranges ""
  /\ num_flashcards n = nth (band n) flashcard_ranges ""
  /\ map range_of quiz_ranges
     = [Some (5, 8); Some (8, 12); Some (10, 15); Some (12, 18)]
  /\ map range_of flashcard_ranges
     = [Some (8, 12); Some (12, 15); Some (15, 18); Some (18, 22)]
  /\ increasing (map range_lo quiz_ranges) = true
  /\ increasing (map range_hi quiz_ranges) = true
  /\ increasing (map range_width quiz_ranges) = true
  /\ increasing (map range_lo flashcard_ranges) = true
  /\ increasing (map range_hi flashcard_ranges) = true
  /\ map range_width flashcard_ranges = [4; 3; 3; 4]
  /\ (exists rest,
         fill_blank_prompt text
         = "Based on the following text, generate 5-7 fill-in-the-blank questions"
             ++ rest)
  /\ (exists rest,
         short_answer_prompt text
         = "Based on the following text, generate 5-7 short answer questions"
             ++ rest).
Proof.
  repeat split; try (vm_compute; reflexivity).
  - unfold multiple_choice_prompt. cbv zeta. eval_lit. eexists.
    do 2 (apply (f_equal2 String.append); [reflexivity|]).
    cbn [String.append]. reflexivity.
  - unfold flashcards_prompt. cbv zeta. eval_lit. eexists.
    do 2 (apply (f_equal2 String.append); [reflexivity|]).
    cbn [String.append]. reflexivity.
  - apply num_questions_band.
  - apply num_flashcards_band.
  - unfold fill_blank_prompt. eval_lit. eexists. cbn [String.append]. reflexivity.
  - unfold short_answer_prompt. eval_lit. eexists. cbn [String.append]. reflexivity.
Qed.

End SizingClaims.

(** * Further properties of the extractor *)

Section ExtractorProperties.
Import PyStr Json Py Effects Extractor Spec Notions.

Lemma json_object_is_dict (fuel : nat) :
  forall s acc v r, json_object fuel s acc = Some (v, r) -> exists m, v = JObj m.
Proof.
  induction fuel as [|f IH]; intros s acc v r; simpl; [discriminate|].
  destruct (scanstring (String.length s) s []) as [[k r0]|]; [|discriminate].
  destruct (skip_ws r0) as [|d t]; [discriminate|].
  destruct (Ascii.eqb d ":"); [|discriminate].
  destruct (scan_once f (skip_ws t)) as [[v1 r1]|]; [|discriminate].
  destruct (skip_ws r1) as [|e t1]; [discriminate|].
  destruct (Ascii.eqb e "}").
  - intros H. inversion H. eauto.
  - destruct (Ascii.eqb e ","); [|discriminate].
    destruct (skip_ws t1) as [|q t2]; [discriminate|].
    destruct (Ascii.eqb q dquote); [|discriminate]. apply IH.
Qed.

(** A text that starts with an opening brace decodes to a dict, if it
    decodes at all. *)
Lemma loads_brace (r : string) (v : value) :
  loads (String "{" r) = Some v -> exists m, v = JObj m.
Proof.
  unfold loads.
  change (skip_ws (String "{" r)) with (String "{" r).
  remember (String.length (String "{" r)) as n eqn:Hn. clear Hn.
  simpl scan_once.
  destruct (skip_ws r) as [|d t]; [discriminate|].
  destruct (Ascii.eqb d "}").
  - destruct (is_empty (skip_ws t)); [|discriminate].
    intros H. injection H as <-. eauto.
  - destruct (Ascii.eqb d dquote); [|discriminate].
    destruct (json_object n t []) as [[v' r']|] eqn:Ho; [|discriminate].
    destruct (is_empty (skip_ws r')); [|discriminate].
    intros H. injection H as <-. eapply json_object_is_dict. exact Ho.
Qed.

(** Every text that [re.findall] returns for the flat-object pattern is an
    opening brace, a text without braces, and a closing brace. *)
Lemma findall_flat_shape (o : string) :
  forall s skip,
    In o (Re.findall_from Re.flat_object skip s) ->
    exists body, o = String "{" (body ++ "}") /\ brace_free body = true.
Proof.
  induction s as [|c r IH]; intros skip; cbn [Re.findall_from]; [intros []|].
  destruct skip as [|k]; [|apply IH].
  destruct (Re.flat_object (String c r)) as [n|] eqn:Hm; [|apply IH].
  intros [<-|H]; [|eapply IH; exact H].
  destruct (flat_object_match _ _ Hm) as [_ Hb]. exact Hb.
Qed.

Lemma flat_objects_are_dicts (response : string) (r : value) :
  In r (flat_objects response) -> exists m, r = JObj m.
Proof.
  unfold flat_objects. intros H. apply in_flat_map in H as [o [Ho Hr]].
  destruct (findall_flat_shape o _ _ Ho) as [body [-> _]].
  destruct (loads (String "{" (body ++ "}"))) as [v|] eqn:Hv; [|destruct Hr].
  destruct Hr as [<-|[]]. eapply loads_brace. exact Hv.
Qed.

(** X1. An array that stands between prose is returned exactly as it
    decodes, provided the prose before it has no opening bracket, the
    prose after it has no closing bracket, and the response does not
    start with a fence. *)
Theorem array_between_prose_is_returned (pre body post : string) (v : value) :
  find pre "[" = -1 ->
  rfind post "]" = -1 ->
  startswith (strip (pre ++ "[" ++ body ++ "]" ++ post)) "```" = false ->
  loads ("[" ++ body ++ "]") = Some v ->
  _parse_json_array (pre ++ "[" ++ body ++ "]" ++ post) = Return v.
Proof.
  intros Hpre Hpost Hf Hv.
  destruct (window_in_prose pre body post Hpre Hpost Hf) as [Hw Hj].
  rewrite parse_json_array_cases. unfold first_attempt. rewrite Hw, Hj, Hv.
  destruct (loads_bracket _ _ Hv) as [l ->]. reflexivity.
Qed.

Lemma array_between_prose_is_returned_witness :
  _parse_json_array
    (lit "Here you go:|" ++ "[" ++ lit "{'front': 'Q', 'back': 'A'}" ++ "]"
       ++ lit "|Good luck!")
  = Return (JArr [JObj [(codes "front", JStr (codes "Q"));
                        (codes "back", JStr (codes "A"))]]).
Proof.
  apply (array_between_prose_is_returned
           (lit "Here you go:|") (lit "{'front': 'Q', 'back': 'A'}")
           (lit "|Good luck!")); vm_compute; reflexivity.
Defined.

(** X2. In salvage mode every record is a dict: when the first decoding
    attempt fails, the extractor returns a list each of whose items is a
    JSON object. *)
Theorem salvaged_records_are_dicts (response : string) :
  first_attempt response = None ->
  exists l,
    _parse_json_array response = Return (JArr l)
    /\ forallb is_object l = true.
Proof.
  intros Hf. rewrite parse_json_array_cases, Hf. eexists. split; [reflexivity|].
  apply forallb_forall. intros r Hr.
  destruct (flat_objects_are_dicts _ _ Hr) as [m ->]. reflexivity.
Qed.

Lemma salvaged_records_are_dicts_witness :
  exists l,
    _parse_json_array (lit "[{'a': 1}, {'b': 2}, {'c': ") = Return (JArr l)
    /\ forallb is_object l = true.
Proof.
  apply (salvaged_records_are_dicts (lit "[{'a': 1}, {'b': 2}, {'c': ")).
  vm_compute. reflexivity.
Defined.

End ExtractorProperties.

Section TrimFacts.
Import PyStr Gateway.

Lemma rstrip_idempotent (s : string) : rstrip (rstrip s) = rstrip s.
Proof.
  induction s as [|c r IH]; [reflexivity|]. cbn [rstrip]. cbv zeta.
  destruct (is_empty (rstrip r) && isspace c) eqn:H; [reflexivity|].
  cbn [rstrip]. cbv zeta. rewrite IH, H. reflexivity.
Qed.

Lemma lstrip_rstrip (s : string) : lstrip (rstrip (lstrip s)) = rstrip (lstrip s).
Proof.
  induction s as [|c r IH]; [reflexivity|]. cbn [lstrip].
  destruct (isspace c) eqn:Hc; [exact IH|].
  cbn [rstrip]. cbv zeta. rewrite Hc, andb_false_r. cbn [lstrip]. now rewrite Hc.
Qed.

(** [s.strip().strip() == s.strip()] *)
Lemma strip_idempotent (s : string) : strip (strip s) = strip s.
Proof. unfold strip. rewrite lstrip_rstrip. apply rstrip_idempotent. Qed.

Lemma lower_char_idempotent (c : ascii) : lower_char (lower_char c) = lower_char c.
Proof. destruct c as [[] [] [] [] [] [] [] []]; vm_compute; reflexivity. Qed.

(** [s.lower().lower() == s.lower()] *)
Lemma lower_idempotent (s : string) : lower (lower s) = lower s.
Proof.
  induction s as [|c r IH]; [reflexivity|]. cbn [lower].
  now rewrite lower_char_idempotent, IH.
Qed.

End TrimFacts.

Section FencedFacts.
Import PyStr Json Py Effects Extractor Spec Notions Re.

Lemma fence_heads_backtick : heads_backtick fence.
Proof.
  intros c r Hc. apply fence_none. rewrite Ascii.eqb_sym, Hc. reflexivity.
Qed.

Lemma fence_json_heads_backtick : heads_backtick fence_json.
Proof.
  intros c r Hc. unfold fence_json. rewrite prefix_cons, Ascii.eqb_sym, Hc.
  reflexivity.
Qed.

(** [re.sub] copies a text without backticks. *)
Lemma sub_copies (p : matcher) (x y : string) :
  heads_backtick p -> no_backtick x = true ->
  sub_from p 0 (x ++ y) = x ++ sub_from p 0 y.
Proof.
  intros Hp. induction x as [|c x IH]; intros Hx; [reflexivity|].
  cbn [no_backtick] in Hx. apply andb_true_iff in Hx as [Hc Hx].
  apply negb_true_iff in Hc.
  change (String c x ++ y) with (String c (x ++ y)).
  cbn [sub_from]. rewrite (Hp c (x ++ y) Hc), (IH Hx). reflexivity.
Qed.

(** [re.sub] passes over the characters of a match. *)
Lemma sub_skips (p : matcher) (m rest : string) :
  sub_from p (String.length m) (m ++ rest) = sub_from p 0 rest.
Proof. induction m as [|c m IH]; [reflexivity|]. simpl. exact IH. Qed.

Lemma spaces_run (ws rest : string) (c : ascii) :
  all_space ws = true -> isspace c = false ->
  spaces (ws ++ String c rest) = String.length ws.
Proof.
  intros Hw Hc. induction ws as [|a ws IH]; simpl.
  - now rewrite Hc.
  - cbn [all_space] in Hw. apply andb_true_iff in Hw as [Ha Hw].
    rewrite Ha, (IH Hw). reflexivity.
Qed.

Lemma space_is_no_backtick (ws : string) :
  all_space ws = true -> no_backtick ws = true.
Proof.
  induction ws as [|a ws IH]; [reflexivity|]. cbn [all_space no_backtick].
  intros H. apply andb_true_iff in H as [Ha Hw]. rewrite (IH Hw), andb_true_r.
  destruct (Ascii.eqb a "`") eqn:E; [|reflexivity].
  apply Ascii.eqb_eq in E. subst. discriminate.
Qed.

Lemma rstrip_spaces (ws : string) : all_space ws = true -> rstrip ws = "".
Proof.
  induction ws as [|a ws IH]; [reflexivity|]. cbn [all_space].
  intros H. apply andb_true_iff in H as [Ha Hw]. simpl. now rewrite (IH Hw), Ha.
Qed.

Lemma no_backtick_app (x y : string) :
  no_backtick (x ++ y) = no_backtick x && no_backtick y.
Proof.
  induction x as [|c x IH]; [reflexivity|]. simpl. now rewrite IH, andb_assoc.
Qed.

(** The cleaned text of a fenced array is the array. *)
Lemma cleaned_fenced (ws body ws' : string) :
  all_space ws = true -> all_space ws' = true -> no_backtick body = true ->
  cleaned ("```json" ++ ws ++ ("[" ++ body ++ "]") ++ ws' ++ "```")
  = "[" ++ body ++ "]".
Proof.
  intros Hw Hw' Hb.
  set (arr := "[" ++ body ++ "]").
  assert (Harr : no_backtick arr = true).
  { unfold arr. cbn [String.append no_backtick]. rewrite no_backtick_app, Hb.
    reflexivity. }
  assert (Hstrip : strip ("```json" ++ ws ++ arr ++ ws' ++ "```")
                   = "```json" ++ ws ++ arr ++ ws' ++ "```").
  { unfold strip. change (lstrip ("```json" ++ ws ++ arr ++ ws' ++ "```"))
      with ("```json" ++ ws ++ arr ++ ws' ++ "```").
    replace ("```json" ++ ws ++ arr ++ ws' ++ "```")
      with (("```json" ++ ws ++ arr ++ ws' ++ "``") ++ String "`" "").
    - rewrite rstrip_after by reflexivity. reflexivity.
    - rewrite !append_assoc. simpl. do 7 f_equal. }
  unfold cleaned. rewrite Hstrip.
  change (startswith ("```json" ++ ws ++ arr ++ ws' ++ "```") "```") with true.
  cbv iota.
  assert (H1 : sub fence_json ("```json" ++ ws ++ arr ++ ws' ++ "```")
               = arr ++ ws' ++ "```").
  { unfold sub.
    change ("```json" ++ ws ++ arr ++ ws' ++ "```")
      with (String "`" ("``json" ++ ws ++ arr ++ ws' ++ "```")).
    cbn [sub_from].
    assert (Hm : fence_json (String "`" ("``json" ++ ws ++ arr ++ ws' ++ "```"))
                 = Some (7 + String.length ws)%nat).
    { unfold fence_json. cbn [String.append drop].
      rewrite !prefix_cons, prefix_empty. cbn [Ascii.eqb Bool.eqb andb].
      change (ws ++ arr ++ ws' ++ "```")
        with (ws ++ String "[" ((body ++ "]") ++ ws' ++ "```")).
      rewrite spaces_run by (auto; reflexivity). reflexivity. }
    rewrite Hm. cbn [Nat.pred Nat.add].
    replace ("``json" ++ ws ++ arr ++ ws' ++ "```")
      with (("``json" ++ ws) ++ arr ++ ws' ++ "```")
      by (rewrite append_assoc; reflexivity).
    replace (S (S (S (S (S (S (String.length ws)))))))
      with (String.length ("``json" ++ ws)) by reflexivity.
    rewrite sub_skips.
    rewrite sub_copies by (auto using fence_json_heads_backtick).
    rewrite sub_copies by (auto using fence_json_heads_backtick, space_is_no_backtick).
    reflexivity. }
  rewrite H1.
  assert (H2 : sub fence (arr ++ ws' ++ "```") = arr ++ ws').
  { unfold sub.
    rewrite sub_copies by (auto using fence_heads_backtick).
    rewrite sub_copies by (auto using fence_heads_backtick, space_is_no_backtick).
    change (sub_from fence 0 "```") with "".
    f_equal. clear. induction ws' as [|c w IH]; simpl; [reflexivity|now rewrite IH]. }
  rewrite H2. unfold strip.
  change (lstrip (arr ++ ws')) with (arr ++ ws').
  unfold arr.
  replace (("[" ++ body ++ "]") ++ ws') with (("[" ++ body) ++ String "]" ws').
  - rewrite rstrip_after by reflexivity. rewrite rstrip_spaces by exact Hw'.
    rewrite append_assoc. reflexivity.
  - rewrite !append_assoc. reflexivity.
Qed.


Lemma append_empty (s : string) : s ++ "" = s.
Proof. induction s as [|c s IH]; simpl; [reflexivity|now rewrite IH]. Qed.

(** The window of a text that is an array is that text. *)
Lemma window_of_array (response body : string) :
  cleaned response = "[" ++ body ++ "]" ->
  has_window response = true /\ json_str response = "[" ++ body ++ "]".
Proof.
  intros Hc.
  assert (Hs : json_start response = 0).
  { unfold json_start. rewrite Hc. reflexivity. }
  assert (He : json_end response = len ("[" ++ body ++ "]")).
  { unfold json_end. rewrite Hc.
    change ("[" ++ body ++ "]") with (String "[" (body ++ String "]" "")).
    replace (String "[" (body ++ String "]" ""))
      with ((String "[" body) ++ String "]" "") by reflexivity.
    rewrite rfind_before by reflexivity.
    rewrite len_append. reflexivity. }
  pose proof (len_nonneg body) as Hb.
  split.
  - unfold has_window. rewrite Hs, He.
    change ("[" ++ body ++ "]") with ("[" ++ (body ++ "]")).
    rewrite !len_append. change (len "]") with 1. change (len "[") with 1.
    apply andb_true_iff. split; [apply Z.leb_le|apply Z.ltb_lt]; lia.
  - unfold json_str. rewrite Hs, He, Hc.
    pose proof (slice_middle "" ("[" ++ body ++ "]") "") as H.
    rewrite append_empty in H. exact H.
Qed.

(** X3. A completion that is a JSON array inside a pair of code fences
    (the opening fence tagged json, white space around the array, no
    backtick inside it) is decoded as if the fences were not there. *)
Theorem fenced_array_is_returned (ws body ws' : string) (v : value) :
  all_space ws = true ->
  all_space ws' = true ->
  no_backtick body = true ->
  loads ("[" ++ body ++ "]") = Some v ->
  _parse_json_array ("```json" ++ ws ++ ("[" ++ body ++ "]") ++ ws' ++ "```")
  = Return v.
Proof.
  intros Hw Hw' Hb Hv.
  pose proof (cleaned_fenced ws body ws' Hw Hw' Hb) as Hc.
  destruct (window_of_array _ _ Hc) as [Hwin Hj].
  rewrite parse_json_array_cases. unfold first_attempt. rewrite Hwin, Hj, Hv.
  destruct (loads_bracket _ _ Hv) as [l ->]. reflexivity.
Qed.

Lemma fenced_array_is_returned_witness :
  _parse_json_array
    ("```json" ++ lit "|" ++ ("[" ++ lit "{'question': 'Q', 'answer': 'A'}" ++ "]")
     ++ lit "|" ++ "```")
  = Return (JArr [JObj [(codes "question", JStr (codes "Q"));
                        (codes "answer", JStr (codes "A"))]]).
Proof.
  apply (fenced_array_is_returned (lit "|")
           (lit "{'question': 'Q', 'answer': 'A'}") (lit "|"));
    vm_compute; reflexivity.
Defined.

End FencedFacts.

(** * Further properties of the completion client *)

Section ClientProperties.
Import PyStr Json Py Effects Extractor Spec Gateway.

(** X4. One call of the gateway's completion client sends exactly one
    request. The text it returns is trimmed and not blank, and whatever
    goes wrong (time-out, refused connection, error status, unreadable
    body, blank text) it raises a plain [Exception]. *)
Theorem completion_client_contract (E : environment) (prompt : string)
        (system_prompt : option string) (model : string) (t : trace) :
  sent (snd (_call_ollama E prompt system_prompt model t)) = S (sent t)
  /\ match fst (_call_ollama E prompt system_prompt model t) with
     | Return s => is_empty s = false /\ strip s = s
     | Raise e => exists m, e = Exception m
     end.
Proof.
  rewrite call_ollama_run. cbn [fst snd]. split; [apply sent_exchange|].
  destruct (client_outcome E _) as [s|e] eqn:H.
  - apply client_returns in H as [s0 [_ [-> He]]]. split; [exact He|].
    apply strip_idempotent.
  - eapply client_raises_exception. exact H.
Qed.

End ClientProperties.

(** * Further properties of the quiz orchestrator *)

Section QuizShape.
Import PyStr Json Py Effects Extractor Spec Gateway Notions.

Variable E : environment.

Lemma subtask_raises (msg : string) (r : http_result) (e : exn) :
  subtask msg (client_outcome E r) = Raise e -> exists m, e = Exception m.
Proof.
  rewrite subtask_cases. destruct (client_outcome E r) as [s|e0] eqn:Hc.
  - destruct (_parse_json_array s) as [[| | | | |[|q l]|]|e1];
      intros H; inversion H; eauto.
  - intros H. inversion H. subst. eapply client_raises_exception. exact Hc.
Qed.

Lemma check_questions_raises (qs : list value) (e : exn) :
  check_questions qs = Raise e -> is_http e = false.
Proof.
  induction qs as [|q r IH]; cbn [check_questions]; [discriminate|].
  destruct (check_question q) as [u|e0] eqn:Hq; [exact IH|].
  intros H. inversion H. subst. clear H.
  destruct q as [| | | |s|l|m]; cbn [check_question] in Hq;
    try (inversion Hq; reflexivity).
  - destruct (infix _ _); inversion Hq; reflexivity.
  - destruct (existsb _ _); inversion Hq; reflexivity.
Qed.

Lemma checked_raises (msg : string) (r : http_result) (e : exn) :
  checked (subtask msg (client_outcome E r)) = Raise e -> is_http e = false.
Proof.
  destruct (subtask msg (client_outcome E r)) as [v|e0] eqn:Hs; cbn [checked].
  - destruct (check_questions (iter v)) eqn:Hc; [discriminate|].
    intros H. inversion H. subst. eapply check_questions_raises. exact Hc.
  - intros H. inversion H. subst.
    destruct (subtask_raises _ _ _ Hs) as [m ->]. reflexivity.
Qed.

(** What a run of the orchestrator produces, for each of the four
    kinds. *)
Lemma quiz_run_shape (text quiz_type : string) (t : trace) :
  in_list quiz_type valid_types = true ->
  match _generate_quiz_with_llm E text quiz_type t with
  | (Return d, t') =>
      well_formed quiz_type d
      /\ (quiz_type = "all" -> exists v, In (codes "multiple_choice", v) d)
      /\ sent t' = (sent t + if String.eqb quiz_type "all" then 3 else 1)%nat
  | (Raise e, t') => is_http e = false /\ sent t' = S (sent t)
  end.
Proof.
  intros Hk. apply in_list_cases in Hk.
  destruct Hk as [<-|[<-|[<-|[<-|[]]]]].
  - rewrite quiz_multiple_choice_run. cbv zeta.
    destruct (checked _) as [v|e] eqn:Hc.
    + apply checked_returns in Hc. destruct (subtask_returns _ _ _ Hc) as [q [l ->]].
      split; [|split; [discriminate|rewrite sent_exchange; cbn; lia]].
      split; [discriminate|]. intros k v [H|[]]. inversion H. subst.
      split; [left; reflexivity|eauto].
    + split; [eapply checked_raises; exact Hc|apply sent_exchange].
  - rewrite quiz_fill_blank_run. cbv zeta.
    destruct (subtask _ _) as [v|e] eqn:Hc.
    + destruct (subtask_returns _ _ _ Hc) as [q [l ->]].
      split; [|split; [discriminate|rewrite sent_exchange; cbn; lia]].
      split; [discriminate|]. intros k v [H|[]]. inversion H. subst.
      split; [left; reflexivity|eauto].
    + destruct (subtask_raises _ _ _ Hc) as [m ->].
      split; [reflexivity|apply sent_exchange].
  - rewrite quiz_short_answer_run. cbv zeta.
    destruct (subtask _ _) as [v|e] eqn:Hc.
    + destruct (subtask_returns _ _ _ Hc) as [q [l ->]].
      split; [|split; [discriminate|rewrite sent_exchange; cbn; lia]].
      split; [discriminate|]. intros k v [H|[]]. inversion H. subst.
      split; [left; reflexivity|eauto].
    + destruct (subtask_raises _ _ _ Hc) as [m ->].
      split; [reflexivity|apply sent_exchange].
  - rewrite quiz_all_run. cbv zeta.
    destruct (checked _) as [v1|e] eqn:Hc.
    + apply checked_returns in Hc. destruct (subtask_returns _ _ _ Hc) as [q [l ->]].
      split; [|split].
      * split.
        { destruct (subtask fill_blank_failed _); destruct (subtask short_answer_failed _);
            discriminate. }
        intros k v Hin.
        destruct (subtask fill_blank_failed _) as [v2|e2] eqn:H2;
          destruct (subtask short_answer_failed _) as [v3|e3] eqn:H3;
          cbn [app In] in Hin;
          repeat match goal with
            | H : _ \/ _ |- _ => destruct H as [H|H]
            | H : False |- _ => destruct H
            | H : (_, _) = (_, _) |- _ => inversion H; subst; clear H
            end;
          (split; [cbn; tauto
                  |first [solve [eauto] | eapply subtask_returns; eassumption]]).
      * intros _. exists (JArr (q :: l)).
        destruct (subtask fill_blank_failed _); destruct (subtask short_answer_failed _);
          cbn; auto.
      * rewrite sent_app. unfold sent at 2. cbn [filter is_sent List.length].
        cbn [String.eqb Ascii.eqb Bool.eqb]. reflexivity.
    + split; [eapply checked_raises; exact Hc|apply sent_exchange].
Qed.

Lemma total_questions_nonneg (d : dict) : 0 <= total_questions d.
Proof.
  unfold total_questions. induction (filter is_list (values d)) as [|v r IH];
    cbn [map fold_right]; [lia|].
  destruct v; lia.
Qed.

Lemma total_questions_cons (k : pystr) (q : value) (l : list value) (d : dict) :
  1 <= total_questions ((k, JArr (q :: l)) :: d).
Proof.
  pose proof (total_questions_nonneg d) as H. unfold total_questions in *.
  cbn [values map snd filter is_list fold_right List.length] in *.
  fold (values d). lia.
Qed.

End QuizShape.

Section QuizProperties.
Import PyStr Json Py Effects Extractor Spec Gateway Notions.

(** The handler after its two checks: the orchestrator runs on the
    trimmed text and the lowered kind, and its result is answered. *)
Lemma generate_quiz_run (E : environment) (request : GenerateQuizRequest)
      (t : trace) :
  turned_down request = false ->
  generate_quiz E request t =
  match _generate_quiz_with_llm E (strip (quiz_text request))
          (lower (quiz_type request)) t with
  | (Return d, t') =>
      (match d with
       | [] => Raise (HTTPException 500 "Quiz generation returned empty result")
       | _ :: _ =>
           if total_questions d =? 0
           then Raise (HTTPException 500
                         "Quiz generation completed but no questions were created")
           else Return (quiz_response d)
       end, t')
  | (Raise e, t') =>
      (match e with
       | HTTPException _ _ => Raise e
       | _ => Raise (HTTPException 500 ("Error generating quiz: " ++ str_exn e))
       end, t')
  end.
Proof.
  unfold turned_down. intros H. apply orb_false_iff in H as [Ht Hk].
  unfold generate_quiz, try_except, bind. cbv zeta. rewrite Ht, Hk.
  destruct (_generate_quiz_with_llm E _ _ t) as [[d|e] t']; [|destruct e; reflexivity].
  destruct d as [|kv d]; [reflexivity|].
  unfold quiz_response.
  destruct (total_questions (kv :: d) =? 0); reflexivity.
Qed.

(** The answer to a request that passes the two checks. *)
Lemma generate_quiz_answer (E : environment) (request : GenerateQuizRequest)
      (t : trace) :
  turned_down request = false ->
  match _generate_quiz_with_llm E (strip (quiz_text request))
          (lower (quiz_type request)) t with
  | (Return d, t') => generate_quiz E request t = (Return (quiz_response d), t')
  | (Raise e, t') =>
      generate_quiz E request t
      = (Raise (HTTPException 500 ("Error generating quiz: " ++ str_exn e)), t')
  end.
Proof.
  intros H. rewrite (generate_quiz_run E request t H).
  assert (Hk : in_list (lower (quiz_type request)) valid_types = true).
  { unfold turned_down in H. apply orb_false_iff in H as [_ H].
    now apply negb_false_iff in H. }
  pose proof (quiz_run_shape E (strip (quiz_text request)) _ t Hk) as Hs.
  destruct (_generate_quiz_with_llm E _ _ t) as [[d|e] t'].
  - destruct Hs as [[Hd Hv] _]. destruct d as [|[k v] d]; [contradiction|].
    destruct (Hv k v (or_introl eq_refl)) as [_ [q [l ->]]].
    pose proof (total_questions_cons k q l d) as Hn.
    destruct (Z.eqb_spec (total_questions ((k, JArr (q :: l)) :: d)) 0); [lia|].
    reflexivity.
  - destruct Hs as [He _]. destruct e; try reflexivity. discriminate.
Qed.

(** X5. [generate_quiz] answers a blank text and an unknown kind with
    status 400 and sends nothing. Every other request either succeeds or
    is answered with status 500. *)
Theorem quiz_failure_statuses (E : environment) (request : GenerateQuizRequest)
        (t : trace) :
  match generate_quiz E request t with
  | (Return _, _) => turned_down request = false
  | (Raise e, t') =>
      exists detail,
        if turned_down request
        then e = HTTPException 400 detail /\ t' = t
        else e = HTTPException 500 detail
  end.
Proof.
  destruct (turned_down request) eqn:H.
  - destruct (generate_quiz_rejects E request t H) as [detail ->]. eauto.
  - pose proof (generate_quiz_answer E request t H) as Ha.
    destruct (_generate_quiz_with_llm E _ _ t) as [[d|e] t']; rewrite Ha; eauto.
Qed.

(** X6. A quiz that [generate_quiz] answers with success is never empty:
    it holds at least one kind, only kinds that were asked for, and at
    least one question for each kind it holds. A quiz for all kinds always
    holds multiple choice questions. The message states the number of
    questions, which is at least one. *)
Theorem quiz_success_is_well_formed (E : environment)
        (request : GenerateQuizRequest) (t : trace) (response : JSONResponse) :
  fst (generate_quiz E request t) = Return response ->
  exists d,
    response = quiz_response d
    /\ well_formed (lower (quiz_type request)) d
    /\ 1 <= total_questions d
    /\ (lower (quiz_type request) = "all" ->
        exists v, In (codes "multiple_choice", v) d).
Proof.
  intros Hr.
  assert (H : turned_down request = false).
  { destruct (turned_down request) eqn:H; [|reflexivity].
    destruct (generate_quiz_rejects E request t H) as [detail Hd].
    rewrite Hd in Hr. discriminate. }
  pose proof (generate_quiz_answer E request t H) as Ha.
  assert (Hk : in_list (lower (quiz_type request)) valid_types = true).
  { unfold turned_down in H. apply orb_false_iff in H as [_ H].
    now apply negb_false_iff in H. }
  pose proof (quiz_run_shape E (strip (quiz_text request)) _ t Hk) as Hs.
  destruct (_generate_quiz_with_llm E _ _ t) as [[d|e] t'];
    rewrite Ha in Hr; cbn [fst] in Hr; [|discriminate].
  inversion Hr. subst response. exists d. destruct Hs as [Hw [Hm _]].
  split; [reflexivity|]. split; [exact Hw|]. split; [|exact Hm].
  destruct Hw as [Hd Hv]. destruct d as [|[k v] d]; [contradiction|].
  destruct (Hv k v (or_introl eq_refl)) as [_ [q [l ->]]].
  apply total_questions_cons.
Qed.

Lemma quiz_success_is_well_formed_witness :
  exists d,
    match fst (generate_quiz (scripted [says two_questions])
                 (mkQuizRequest " The cell is the unit of life. " "Fill_Blank") [])
    with
    | Return r => r
    | Raise _ => mkJSONResponse []
    end = quiz_response d
    /\ well_formed (lower "Fill_Blank") d
    /\ 1 <= total_questions d
    /\ (lower "Fill_Blank" = "all" -> exists v, In (codes "multiple_choice", v) d).
Proof.
  apply (quiz_success_is_well_formed (scripted [says two_questions])
           (mkQuizRequest " The cell is the unit of life. " "Fill_Blank") []).
  vm_compute. reflexivity.
Defined.



(** X8. [generate_quiz] reads the kind without regard to case and the
    text without the white space around it: a request and its
    normalised form are answered alike. *)
Theorem quiz_request_is_normalised (E : environment) (text quiz_type : string)
        (t : trace) :
  generate_quiz E (mkQuizRequest text quiz_type) t
  = generate_quiz E (mkQuizRequest (strip text) (lower quiz_type)) t.
Proof.
  unfold generate_quiz. cbn [quiz_text Gateway.quiz_type]. cbv zeta.
  rewrite strip_idempotent, lower_idempotent. reflexivity.
Qed.



End QuizProperties.

Section QuizChecks.
Import PyStr Json Py Effects Extractor Spec Gateway Notions.




(** X11. The two checks that [generate_quiz] makes of the orchestrator's
    result never fire: a request that passes validation and fails is
    answered with the message of the failure that the orchestrator
    raised, never with one of the two details of those checks. *)
Theorem quiz_result_checks_never_fire (E : environment)
        (request : GenerateQuizRequest) (t : trace) (e : exn) :
  turned_down request = false ->
  fst (generate_quiz E request t) = Raise e ->
  (exists m, e = HTTPException 500 ("Error generating quiz: " ++ m))
  /\ e <> HTTPException 500 "Quiz generation returned empty result"
  /\ e <> HTTPException 500
            "Quiz generation completed but no questions were created".
Proof.
  intros H Hr. pose proof (generate_quiz_answer E request t H) as Ha.
  destruct (_generate_quiz_with_llm E _ _ t) as [[d|e'] t']; rewrite Ha in Hr;
    cbn [fst] in Hr; [discriminate|].
  inversion Hr. subst e. split; [eexists; reflexivity|].
  split; intros Hq; cbn [String.append] in Hq; discriminate Hq.
Qed.

Lemma quiz_result_checks_never_fire_witness :
  (exists m,
      HTTPException 500
        "Error generating quiz: Failed to generate short answer questions: LLM returned empty or invalid response"
      = HTTPException 500 ("Error generating quiz: " ++ m))
  /\ HTTPException 500
       "Error generating quiz: Failed to generate short answer questions: LLM returned empty or invalid response"
     <> HTTPException 500 "Quiz generation returned empty result"
  /\ HTTPException 500
       "Error generating quiz: Failed to generate short answer questions: LLM returned empty or invalid response"
     <> HTTPException 500
          "Quiz generation completed but no questions were created".
Proof.
  apply (quiz_result_checks_never_fire (scripted [says "[]"])
           (mkQuizRequest "The cell is the unit of life." "short_answer") []).
  - vm_compute. reflexivity.
  - vm_compute. reflexivity.
Defined.

End QuizChecks.

(** * Properties of the summary and flashcards handlers *)

Section HandlerProperties.
Import PyStr Json Py Effects Extractor Spec Gateway Notions.

Variable E : environment.

(** X12. The summary and the flashcards handler answer a blank text with
    status 500, not 400: their own rejection is caught by their handler
    of every exception. Nothing is sent. *)
Theorem blank_text_is_answered_with_500 (request : SummaryRequest) (t : trace) :
  is_empty (strip (summary_text request)) = true ->
  exists detail detail',
    generate_summary E request t = (Raise (HTTPException 500 detail), t)
    /\ generate_flashcards E request t = (Raise (HTTPException 500 detail'), t).
Proof.
  intros H. unfold generate_summary, generate_flashcards, try_except.
  rewrite H. do 2 eexists. split; reflexivity.
Qed.

(** X13. For a text that is not blank the summary handler sends one
    completion request. It answers with a summary that is trimmed and
    not blank, or else with status 500. *)
Theorem summary_handler_contract (request : SummaryRequest) (t : trace) :
  is_empty (strip (summary_text request)) = false ->
  sent (snd (generate_summary E request t)) = S (sent t)
  /\ match fst (generate_summary E request t) with
     | Return response =>
         exists summary,
           response = summary_response summary
           /\ is_empty summary = false /\ strip summary = summary
     | Raise e => exists detail, e = HTTPException 500 detail
     end.
Proof.
  intros H. unfold generate_summary, try_except, bind, _generate_summary_with_llm.
  rewrite H. rewrite call_ollama_run. cbv zeta.
  destruct (client_outcome E _) as [s|e] eqn:Hc; unfold raise, ret; cbn [fst snd].
  - split; [apply sent_exchange|]. exists s.
    apply client_returns in Hc as [s0 [_ [-> He]]].
    split; [reflexivity|]. split; [exact He|apply strip_idempotent].
  - split; [apply sent_exchange|eauto].
Qed.


End HandlerProperties.

Section HandlerWitnesses.
Import PyStr Json Py Effects Extractor Spec Gateway Notions.

Lemma blank_text_is_answered_with_500_witness :
  exists detail detail',
    generate_summary (scripted []) (mkSummaryRequest "   ") []
    = (Raise (HTTPException 500 detail), [])
    /\ generate_flashcards (scripted []) (mkSummaryRequest "   ") []
       = (Raise (HTTPException 500 detail'), []).
Proof.
  apply (blank_text_is_answered_with_500 (scripted []) (mkSummaryRequest "   ") []).
  reflexivity.
Defined.

Lemma summary_handler_contract_witness :
  sent (snd (generate_summary (scripted [says " Cells are the units of life. "])
               (mkSummaryRequest "The cell is the unit of life.") []))
  = S (sent [])
  /\ match fst (generate_summary (scripted [says " Cells are the units of life. "])
                  (mkSummaryRequest "The cell is the unit of life.") []) with
     | Return response =>
         exists summary,
           response = summary_response summary
           /\ is_empty summary = false /\ strip summary = summary
     | Raise e => exists detail, e = HTTPException 500 detail
     end.
Proof.
  apply (summary_handler_contract
           (scripted [says " Cells are the units of life. "])
           (mkSummaryRequest "The cell is the unit of life.") []).
  reflexivity.
Defined.


End HandlerWitnesses.

(** * Properties of the backend *)

Section BackendProperties.
Import PyStr Json Py Effects Extractor Spec Notions.

Variable E : environment.

(** X15. One call of the backend's completion client sends exactly one
    request. The text it returns is trimmed (and may be empty), and
    every failure is raised as a plain [Exception] whose message starts
    with the same words. *)
Theorem backend_client_contract (prompt : string) (system_prompt : option string)
        (t : trace) :
  sent (snd (Backend._call_ollama E prompt system_prompt t)) = S (sent t)
  /\ match fst (Backend._call_ollama E prompt system_prompt t) with
     | Return s => strip s = s
     | Raise e =>
         exists m, e = Exception ("Failed to generate content with AI: " ++ m)
     end.
Proof.
  unfold Backend._call_ollama, try_except, bind, post.
  destruct (endpoint E (sent t) _ _) as [c b|m|m|m]; unfold raise; cbn [fst snd];
    try (split; [apply sent_exchange|eauto]).
  unfold Backend.raise_for_status.
  destruct ((400 <=? c) && (c <? 600)); unfold raise, ret; cbn [fst snd];
    [split; [apply sent_exchange|eauto]|].
  destruct b as [s| |m]; cbn [response_member]; unfold raise, ret; cbn [fst snd];
    (split; [apply sent_exchange|]); eauto using strip_idempotent.
Qed.

Lemma backend_call_sends_one (prompt : string) (system_prompt : option string)
      (t : trace) :
  sent (snd (Backend._call_ollama E prompt system_prompt t)) = S (sent t).
Proof.
  unfold Backend._call_ollama, try_except, bind, post.
  destruct (endpoint E (sent t) _ _) as [c b|m|m|m]; unfold raise; cbn [fst snd];
    try apply sent_exchange.
  unfold Backend.raise_for_status.
  destruct ((400 <=? c) && (c <? 600)); unfold raise, ret; cbn [fst snd];
    [apply sent_exchange|].
  destruct b as [s| |m]; cbn [response_member]; unfold raise, ret; cbn [fst snd];
    apply sent_exchange.
Qed.

Lemma backend_flashcards_sends_one (text : string) (t : trace) :
  sent (snd (Backend.generate_flashcards E text t)) = S (sent t).
Proof.
  unfold Backend.generate_flashcards, try_except, bind, lift.
  pose proof (backend_call_sends_one (Backend.flashcards_prompt text)
                (Some Backend.flashcards_system) t) as H.
  destruct (Backend._call_ollama E _ _ t) as [[s|e] t']; cbn [snd] in *;
    [|exact H].
  destruct (Backend.parse_or _ s); exact H.
Qed.

Lemma backend_questions_sends_one (text : string) (t : trace) :
  sent (snd (Backend.generate_questions E text t)) = S (sent t).
Proof.
  unfold Backend.generate_questions, try_except, bind, lift.
  pose proof (backend_call_sends_one (Backend.questions_prompt text)
                (Some Backend.questions_system) t) as H.
  destruct (Backend._call_ollama E _ _ t) as [[s|e] t']; cbn [snd] in *;
    [|exact H].
  destruct (Backend.parse_or _ s); exact H.
Qed.

Lemma backend_summary_sends_one (text : string) (t : trace) :
  sent (snd (Backend.generate_summary E text t)) = S (sent t).
Proof.
  unfold Backend.generate_summary, try_except.
  pose proof (backend_call_sends_one (Backend.summary_prompt text)
                (Some Backend.summary_system) t) as H.
  destruct (Backend._call_ollama E _ _ t) as [[s|e] t']; exact H.
Qed.

Lemma not_blank (text : string) :
  is_empty (strip text) = false ->
  is_empty text || (len (strip text) =? 0) = false.
Proof.
  intros H. destruct text as [|c r]; [discriminate|]. cbn [is_empty orb].
  destruct (strip (String c r)); [discriminate|]. reflexivity.
Qed.

(** X16. The backend's [generate_content] answers a text that is not
    blank either with status 500 or with a content that holds exactly
    the kinds asked for, in the order flashcards, summary, questions: a
    request for all kinds never succeeds with a part of them. It sends
    one completion request for each kind it generates, and stops at the
    first kind that fails. *)
Theorem backend_content_is_all_or_nothing
        (request : Backend.GenerateContentRequest) (t : trace) :
  is_empty (strip (Backend.content_text request)) = false ->
  match Backend.generate_content E request t with
  | (Return response, t') =>
      exists d,
        response = content_response d
        /\ map fst d = content_keys (Backend.content_type request)
        /\ sent t' = (sent t + List.length d)%nat
  | (Raise e, t') =>
      (exists detail, e = HTTPException 500 detail)
      /\ (sent t < sent t'
          <= sent t + List.length (content_keys (Backend.content_type request)))%nat
  end.
Proof.
  intros H. unfold Backend.generate_content, try_except, bind. cbv zeta.
  rewrite (not_blank _ H). unfold content_keys.
  pose proof (backend_flashcards_sends_one (Backend.content_text request) t) as Hf.
  destruct (Gateway.in_list _ ["flashcards"; "all"]).
  - destruct (Backend.generate_flashcards E _ t) as [[f|e] t1]; cbn [snd] in Hf;
      unfold raise, ret;
      [|split; [eauto|cbn [app List.length]; lia]].
    pose proof (backend_summary_sends_one (Backend.content_text request) t1) as Hs.
    destruct (Gateway.in_list _ ["summary"; "all"]).
    + destruct (Backend.generate_summary E _ t1) as [[s|e] t2]; cbn [snd] in Hs;
        [|split; [eauto|cbn [app List.length]; lia]].
      pose proof (backend_questions_sends_one (Backend.content_text request) t2) as Hq.
      destruct (Gateway.in_list _ ["questions"; "all"]).
      * destruct (Backend.generate_questions E _ t2) as [[q|e] t3]; cbn [snd] in Hq;
          [|split; [eauto|cbn [app List.length]; lia]].
        eexists. split; [reflexivity|]. split; [reflexivity|].
        count_keys. lia.
      * eexists. split; [reflexivity|]. split; [reflexivity|].
        count_keys. lia.
    + pose proof (backend_questions_sends_one (Backend.content_text request) t1) as Hq.
      destruct (Gateway.in_list _ ["questions"; "all"]).
      * destruct (Backend.generate_questions E _ t1) as [[q|e] t3]; cbn [snd] in Hq;
          [|split; [eauto|cbn [app List.length]; lia]].
        eexists. split; [reflexivity|]. split; [reflexivity|].
        count_keys. lia.
      * eexists. split; [reflexivity|]. split; [reflexivity|].
        count_keys. lia.
  - clear Hf. unfold ret.
    pose proof (backend_summary_sends_one (Backend.content_text request) t) as Hs.
    destruct (Gateway.in_list _ ["summary"; "all"]).
    + destruct (Backend.generate_summary E _ t) as [[s|e] t2]; cbn [snd] in Hs;
        unfold raise;
        [|split; [eauto|cbn [app List.length]; lia]].
      pose proof (backend_questions_sends_one (Backend.content_text request) t2) as Hq.
      destruct (Gateway.in_list _ ["questions"; "all"]).
      * destruct (Backend.generate_questions E _ t2) as [[q|e] t3]; cbn [snd] in Hq;
          [|split; [eauto|cbn [app List.length]; lia]].
        eexists. split; [reflexivity|]. split; [reflexivity|].
        count_keys. lia.
      * eexists. split; [reflexivity|]. split; [reflexivity|].
        count_keys. lia.
    + pose proof (backend_questions_sends_one (Backend.content_text request) t) as Hq.
      destruct (Gateway.in_list _ ["questions"; "all"]).
      * destruct (Backend.generate_questions E _ t) as [[q|e] t3]; cbn [snd] in Hq;
          unfold raise;
          [|split; [eauto|cbn [app List.length]; lia]].
        eexists. split; [reflexivity|]. split; [reflexivity|].
        count_keys. lia.
      * eexists. split; [reflexivity|]. split; [reflexivity|].
        count_keys. lia.
Qed.

End BackendProperties.

Section BackendWitnesses.
Import PyStr Json Py Effects Extractor Spec Notions.

Lemma backend_content_is_all_or_nothing_witness :
  match Backend.generate_content
          (scripted [says (lit "[{'front': 'Cell', 'back': 'Unit of life'}]");
                     says "Cells are the units of life.";
                     TimedOut "read timeout"])
          (Backend.mkContentRequest "The cell is the unit of life." "all") []
  with
  | (Return response, t') =>
      exists d,
        response = content_response d
        /\ map fst d = content_keys "all"
        /\ sent t' = (sent [] + List.length d)%nat
  | (Raise e, t') =>
      (exists detail, e = HTTPException 500 detail)
      /\ (sent [] < sent t' <= sent [] + List.length (content_keys "all"))%nat
  end.
Proof.
  apply (backend_content_is_all_or_nothing
           (scripted [says (lit "[{'front': 'Cell', 'back': 'Unit of life'}]");
                      says "Cells are the units of life.";
                      TimedOut "read timeout"])
           (Backend.mkContentRequest "The cell is the unit of life." "all") []).
  reflexivity.
Defined.

End BackendWitnesses.

(** * Properties of the scan handler *)

Section ScanProperties.
Import PyStr Json Py Extractor Scan.

Variable E : ocr_environment.

Lemma get_raises (v : value) (k : string) (d : value) (e : exn) :
  get v k d = Raise e -> exists m, e = AttributeError m.
Proof. destruct v; cbn [get]; intros H; inversion H; eauto. Qed.

Lemma py_len_raises (v : value) (e : exn) :
  py_len v = Raise e -> exists m, e = TypeError m.
Proof. destruct v; cbn [py_len]; intros H; inversion H; eauto. Qed.

(** X17. [scan_image] never passes on the status of the OCR service.
    When the service cannot be reached the answer has status 503; when
    it responds, with whatever status and body, a failure has status
    500. Success needs a response of status 200. *)
Theorem scan_failure_statuses (file : UploadFile) :
  match scan_image E file with
  | Return _ =>
      exists text,
        ocr_endpoint E (OCR_SERVICE_URL E ++ "/extract") file = OcrResponse 200 text
  | Raise e =>
      exists detail,
        e = HTTPException
              match ocr_endpoint E (OCR_SERVICE_URL E ++ "/extract") file with
              | OcrResponse _ _ => 500
              | _ => 503
              end detail
  end.
Proof.
  unfold scan_image, scan_image_body, post.
  destruct (ocr_endpoint E _ file) as [c b|m|m|m]; eauto.
  destruct (Z.eqb_spec c 200) as [->|Hc]; cbn [negb]; [|eauto].
  destruct (loads b) as [result|]; [|eauto].
  destruct (get result "success" JNull) as [success|e] eqn:Hs.
  - destruct (Gateway.truthy success); cbn [negb]; [|eauto].
    destruct (get result "text" (JStr [])) as [extracted|e] eqn:Ht.
    + destruct (py_len extracted) as [n|e] eqn:Hl; [eauto|].
      destruct (py_len_raises _ _ Hl) as [m ->]. eauto.
    + destruct (get_raises _ _ _ _ Ht) as [m ->]. eauto.
  - destruct (get_raises _ _ _ _ Hs) as [m ->]. eauto.
Qed.


End ScanProperties.
